(** * The payment gateway's transaction processor

    A shallow embedding of
    [services/payment-gateway/src/services/PaymentProcessor.ts] (class
    [PaymentProcessor]: [processPayment], [processRefund],
    [capturePayment]) together with the data model of
    [models/Transaction.ts], and the properties its design document
    states about it.

    The processor talks to three things it does not own: the JavaScript
    runtime (numbers are IEEE-754 binary64 values), the [decimal.js]
    library and the HTTP client.  Each has a small executable model below;
    the processor itself is translated statement by statement on top of
    them. *)

From Stdlib Require Import ZArith List String Ascii Lia Bool DecimalString.
From Stdlib Require Import Floats.SpecFloat.
Import ListNotations.

Open Scope Z_scope.

(* ===================================================================== *)
(** * JavaScript numbers *)
(* ===================================================================== *)

(** A JS [number] is a binary64 floating point value.  The type and the
    rounding functions are those of the standard library's IEEE-754
    specification, at precision 53 and maximal exponent 1024. *)
Module JSNumber.

Definition prec : Z := 53.
Definition emax : Z := 1024.

Definition number : Type := spec_float.

(** The number denoted by an integer literal. *)
Definition of_Z (n : Z) : number := binary_normalize prec emax n 0 false.

(** The number nearest to the decimal [c * 10^q] (ties to even): what the
    runtime computes for [Number("c e q")] and for a numeric literal. *)
Definition round_decimal (neg : bool) (c : positive) (q : Z) : number :=
  match q with
  | Zneg k =>
      let '(mz, ez, lz) :=
        SFdiv_core_binary prec emax (Zpos c) 0 (Zpos (10 ^ k)) 0 in
      binary_round_aux prec emax neg mz ez lz
  | _ => binary_round prec emax neg (c * Z.to_pos (10 ^ q))%positive 0
  end.

(** [Object.is]: the same number, telling [+0] from [-0] and equating
    [NaN] with itself. *)
Definition same_value (x y : number) : bool :=
  match x, y with
  | S754_nan, S754_nan => true
  | S754_zero a, S754_zero b => Bool.eqb a b
  | S754_infinity a, S754_infinity b => Bool.eqb a b
  | S754_finite a m e, S754_finite b m' e' =>
      Bool.eqb a b && Pos.eqb m m' && Z.eqb e e'
  | _, _ => false
  end.

(** [ToBoolean] on numbers: [+0], [-0] and [NaN] are falsy. *)
Definition truthy (x : number) : bool :=
  match x with
  | S754_zero _ | S754_nan => false
  | _ => true
  end.

(** The integer a number denotes when it is one of magnitude below
    [2^53] (a "safe integer"). *)
Definition to_safe_integer (x : number) : option Z :=
  match x with
  | S754_zero _ => Some 0
  | S754_finite neg m e =>
      let sign z := if neg then - z else z in
      match e with
      | Z0 => Some (sign (Zpos m))
      | Zneg k =>
          if Zpos m mod Zpos (2 ^ k) =? 0
          then Some (sign (Zpos m / Zpos (2 ^ k)))
          else None
      | Zpos _ => None
      end
  | _ => None
  end.

(** ** [Number.prototype.toString]

    The digits printed for a finite number are the shortest decimal that
    reads back as the same number (ECMAScript, Number::toString: [k] as
    small as possible, then [s] closest to the value). *)

(** [m * 2^e] as a fraction of integers. *)
Definition fraction (m : positive) (e : Z) : Z * Z :=
  match e with
  | Zneg k => (Zpos m, Zpos (2 ^ k))
  | _ => (Zpos m * 2 ^ e, 1)
  end.

(** [num / den < 10^n]. *)
Definition below_pow10 (v : Z * Z) (n : Z) : bool :=
  let '(num, den) := v in
  match n with
  | Zneg k => num * Zpos (10 ^ k) <? den
  | _ => num <? den * 10 ^ n
  end.

(** The least [n] with [m * 2^e < 10^n], found from the binary logarithm. *)
Definition magnitude10 (m : positive) (e : Z) : Z :=
  let v := fraction m e in
  let lg := Zpos (digits2_pos m) + e - 1 in
  let est := (lg * 1233) / 4096 in
  match List.find (below_pow10 v) [est - 1; est; est + 1; est + 2] with
  | Some n => n
  | None => est + 3
  end.

(** [floor (v / 10^q)], and how the discarded part compares with a half. *)
Definition scaled (v : Z * Z) (q : Z) : Z * comparison :=
  let '(num, den) := v in
  let '(a, b) := match q with
                 | Zneg k => (num * Zpos (10 ^ k), den)
                 | _ => (num, den * 10 ^ q)
                 end in
  (a / b, (2 * (a mod b)) ?= b).

(** The [k]-digit decimal that reads back as [x], if there is one. *)
Definition candidate (x : number) (v : Z * Z) (n k : Z)
  : option (positive * Z) :=
  let q := n - k in
  let '(lo, half) := scaled v q in
  let hi := lo + 1 in
  let ok s := (0 <? s) && same_value (round_decimal false (Z.to_pos s) q) x in
  match ok lo, ok hi with
  | true, true =>
      match half with
      | Lt => Some (Z.to_pos lo, q)
      | Gt => Some (Z.to_pos hi, q)
      | Eq => Some (Z.to_pos (if Z.even lo then lo else hi), q)
      end
  | true, false => Some (Z.to_pos lo, q)
  | false, true => Some (Z.to_pos hi, q)
  | false, false => None
  end.

Fixpoint first_some {A B} (f : A -> option B) (l : list A) : option B :=
  match l with
  | [] => None
  | a :: l' => match f a with Some b => Some b | None => first_some f l' end
  end.

(** Seventeen significant digits identify every binary64 value. *)
Definition digit_counts : list Z :=
  [1; 2; 3; 4; 5; 6; 7; 8; 9; 10; 11; 12; 13; 14; 15; 16; 17].

(** The shortest decimal [s * 10^q] of the positive number [m * 2^e]. *)
Definition shortest (m : positive) (e : Z) : positive * Z :=
  let v := fraction m e in
  let n := magnitude10 m e in
  match first_some (candidate (S754_finite false m e) v n) digit_counts with
  | Some d => d
  | None => (Z.to_pos (fst (scaled v (n - 17))), n - 17)
  end.

(** ** Printing a decimal the JavaScript way

    [format_decimal c q] prints [c * 10^q]: plain notation when the
    decimal point falls within 21 digits to the left or 6 zeros to the
    right, exponential notation otherwise.  [Number.prototype.toString]
    and [decimal.js] (default [toExpNeg = -7], [toExpPos = 21]) share
    these rules. *)

Local Open Scope string_scope.

Fixpoint zeros (j : nat) : string :=
  match j with
  | O => EmptyString
  | S j' => String "0"%char (zeros j')
  end.

Definition digits_of_N (n : N) : string :=
  NilZero.string_of_uint (N.to_uint n).

Definition format_decimal (c : positive) (q : Z) : string :=
  let u := Pos.to_uint c in
  let u' := Decimal.rev (Decimal.unorm (Decimal.rev u)) in
  let ds := NilZero.string_of_uint u' in
  let k := Z.of_nat (Decimal.nb_digits u') in
  let n := (q + Z.of_nat (Decimal.nb_digits u))%Z in
  if ((k <=? n) && (n <=? 21))%Z then
    ds ++ zeros (Z.to_nat (n - k))
  else if ((0 <? n) && (n <=? 21))%Z then
    substring 0 (Z.to_nat n) ds ++ "." ++
    substring (Z.to_nat n) (Z.to_nat (k - n)) ds
  else if ((-6 <? n) && (n <=? 0))%Z then
    "0." ++ zeros (Z.to_nat (- n)) ++ ds
  else
    let e := (n - 1)%Z in
    let mantissa :=
      if (k =? 1)%Z then ds
      else substring 0 1 ds ++ "." ++ substring 1 (Z.to_nat (k - 1)) ds in
    mantissa ++ "e" ++ (if (e <? 0)%Z then "-" else "+")
             ++ digits_of_N (Z.to_N (Z.abs e)).

Definition toString (x : number) : string :=
  match x with
  | S754_nan => "NaN"
  | S754_zero _ => "0"
  | S754_infinity neg => if neg then "-Infinity" else "Infinity"
  | S754_finite neg m e =>
      let '(c, q) := shortest m e in
      (if neg then "-" else "") ++ format_decimal c q
  end.

(** The exact value of a finite number, as a fraction of integers. *)
Definition exact (x : number) : option (Z * Z) :=
  match x with
  | S754_zero _ => Some (0%Z, 1%Z)
  | S754_finite neg m e =>
      let '(num, den) := fraction m e in
      Some (if neg then (- num)%Z else num, den)
  | _ => None
  end.

End JSNumber.

(** Equality of fractions, by cross-multiplication. *)
Definition same_fraction (a b : Z * Z) : Prop :=
  fst a * snd b = fst b * snd a.

Definition number : Type := JSNumber.number.

(* ===================================================================== *)
(** * The [decimal.js] library *)
(* ===================================================================== *)

(** The three operations of [Decimal] the processor uses: the constructor
    applied to a number, [toNumber] and [toString].  A [Decimal] holds an
    arbitrary-precision decimal [(-1)^neg * c * 10^q]; the constructor does
    not round to the configured precision. *)
Module DecimalJS.

Inductive Decimal : Type :=
| D_NaN
| D_Infinity (neg : bool)
| D_Finite (neg : bool) (c : N) (q : Z).

(** [new Decimal(v)] for a number [v].  The library reads the digits of
    [v.toString()], with a direct route for small integers; for an integer
    below [2^53] both routes yield the integer itself. *)
Definition new_Decimal (v : number) : Decimal :=
  match v with
  | S754_nan => D_NaN
  | S754_infinity neg => D_Infinity neg
  | S754_zero neg => D_Finite neg 0 0
  | S754_finite neg m e =>
      match JSNumber.to_safe_integer (S754_finite false m e) with
      | Some n => D_Finite neg (Z.to_N n) 0
      | None => let '(c, q) := JSNumber.shortest m e in D_Finite neg (Npos c) q
      end
  end.

(** [d.toNumber()] is [+d]: the nearest binary64 number. *)
Definition toNumber (d : Decimal) : number :=
  match d with
  | D_NaN => S754_nan
  | D_Infinity neg => S754_infinity neg
  | D_Finite neg N0 _ => S754_zero neg
  | D_Finite neg (Npos c) q => JSNumber.round_decimal neg c q
  end.

(** [d.toString()]. *)
Definition toString (d : Decimal) : string :=
  match d with
  | D_NaN => "NaN"
  | D_Infinity neg => if neg then "-Infinity" else "Infinity"
  | D_Finite _ N0 _ => "0"
  | D_Finite neg (Npos c) q =>
      ((if neg then "-" else "") ++ JSNumber.format_decimal c q)%string
  end.

(** The exact value of a finite decimal, as a fraction. *)
Definition value (d : Decimal) : option (Z * Z) :=
  match d with
  | D_Finite neg c q =>
      let z := if neg then - Z.of_N c else Z.of_N c in
      Some (match q with
            | Zneg k => (z, Zpos (10 ^ k))
            | _ => (z * 10 ^ q, 1)
            end)
  | _ => None
  end.

End DecimalJS.

(* ===================================================================== *)
(** * JavaScript values, errors and completions *)
(* ===================================================================== *)

(** The processor is handed untyped data: the payment method is [any], the
    metadata is a record of [unknown], and the provider's response body is
    whatever JSON came back.  Arrays do not occur in the properties the
    processor reads and are left out. *)
#[warnings="-register-all"]
Inductive JSValue : Type :=
| VUndefined
| VNull
| VBool (b : bool)
| VNumber (x : number)
| VString (s : string)
| VObject (fields : list (string * JSValue)).

Module JS.

(** [ToBoolean]. *)
Definition truthy (v : JSValue) : bool :=
  match v with
  | VUndefined | VNull => false
  | VBool b => b
  | VNumber x => JSNumber.truthy x
  | VString s => negb (String.eqb s "")
  | VObject _ => true
  end.

(** [a || b]. *)
Definition or (a b : JSValue) : JSValue := if truthy a then a else b.

(** [v === 'literal']. *)
Definition strict_eq_string (v : JSValue) (s : string) : bool :=
  match v with
  | VString t => String.eqb t s
  | _ => false
  end.

(** [ToString], as applied by template literals. *)
Definition ToString (v : JSValue) : string :=
  match v with
  | VUndefined => "undefined"
  | VNull => "null"
  | VBool b => if b then "true" else "false"
  | VNumber x => JSNumber.toString x
  | VString s => s
  | VObject _ => "[object Object]"
  end.

Fixpoint lookup (k : string) (fields : list (string * JSValue)) : JSValue :=
  match fields with
  | [] => VUndefined
  | (k', v) :: rest => if String.eqb k k' then v else lookup k rest
  end.

(** The classes of the errors that occur: the native [Error] (which the
    HTTP client's errors extend), [TypeError], [ReferenceError], and the
    processor's own [PaymentError]. *)
Inductive ErrorClass : Type :=
  Error_ | TypeError_ | ReferenceError_ | PaymentError_.

Record JSError : Type := mkError {
  class : ErrorClass;
  message : string;
  code : JSValue
}.

(** The result of evaluating a statement or an awaited promise: a value,
    a thrown error, or, for a promise that the model has followed as far
    as its fuel goes without seeing it settle, [Unsettled]. *)
Inductive Completion (A : Type) : Type :=
| Normal (a : A)
| Throw (e : JSError)
| Unsettled.
Arguments Normal {A} a.
Arguments Throw {A} e.
Arguments Unsettled {A}.

(** [v.k]: reading a property of [undefined] or [null] throws a
    [TypeError]; a missing property reads as [undefined]. *)
Definition get (v : JSValue) (k : string) : Completion JSValue :=
  match v with
  | VUndefined | VNull =>
      Throw (mkError TypeError_
               ("Cannot read properties of " ++ ToString v ++
                " (reading '" ++ k ++ "')")%string VUndefined)
  | VObject fields => Normal (lookup k fields)
  | _ => Normal VUndefined
  end.

(** The [message] an [Error] constructor stores for its argument. *)
Definition Error_message (v : JSValue) : string :=
  match v with
  | VUndefined => ""
  | _ => ToString v
  end.

End JS.
Export JS.

(* ===================================================================== *)
(** * The data model ([models/Transaction.ts]) *)
(* ===================================================================== *)

(** [TransactionType] is declared with [export type]: a name the type
    checker gives to four string literals, erased when the module is
    compiled.  The module exports no value of that name, so the binding
    that [PaymentProcessor.ts] imports under it holds [undefined] when the
    program runs. *)
Definition TransactionType : JSValue := VUndefined.

(** [TransactionStatus] is an [enum]: its members exist at run time. *)
Inductive TransactionStatus : Type := PENDING | COMPLETED | FAILED | CANCELED.

(** The interface [Transaction].  Fields the processor fills from the
    provider's response, and [type], hold whatever value the expression
    written for them had; an absent optional field is [VUndefined].  The
    two timestamps are not modelled. *)
Record Transaction : Type := mkTransaction {
  id : string;
  originalTransactionId : JSValue;
  providerTransactionId : JSValue;
  amount : JSValue;
  currency : JSValue;
  status : TransactionStatus;
  type : JSValue;
  metadata : JSValue;
  error : JSValue
}.

Definition set_status (st : TransactionStatus) (t : Transaction) : Transaction :=
  mkTransaction (id t) (originalTransactionId t) (providerTransactionId t)
    (amount t) (currency t) st (type t) (metadata t) (error t).

Definition set_providerTransactionId (v : JSValue) (t : Transaction) : Transaction :=
  mkTransaction (id t) (originalTransactionId t) v
    (amount t) (currency t) (status t) (type t) (metadata t) (error t).

Definition set_error (v : JSValue) (t : Transaction) : Transaction :=
  mkTransaction (id t) (originalTransactionId t) (providerTransactionId t)
    (amount t) (currency t) (status t) (type t) (metadata t) v.

(* ===================================================================== *)
(** * The world around the processor *)
(* ===================================================================== *)

(** An HTTP request as handed to [axios.post(url, body, config)]. *)
Record RequestConfig : Type := mkConfig {
  headers : list (string * string);
  timeout : option Z
}.

Record Request : Type := mkRequest {
  url : string;
  body : JSValue;
  config : RequestConfig
}.

(** The field of a JSON body; a key whose value is [undefined] is dropped
    by the serializer, so it reads as absent. *)
Definition body_field (k : string) (r : Request) : JSValue :=
  match body r with
  | VObject fields => lookup k fields
  | _ => VUndefined
  end.

Record Response : Type := mkResponse { data : JSValue }.

(** What awaiting an [axios.post] produces: a response (the promise
    resolves) or an error (it rejects: network failure, timeout, 5xx). *)
Inductive AxiosResult : Type :=
| Resolves (r : Response)
| Rejects (e : JSError).

(** The state an operation runs in.  [provider n] is the outcome of the
    [n]-th request sent (counting from 0) and [uuids n] the [n]-th value of
    [uuidv4()]; [calls] logs the requests sent, oldest first; [drawn]
    counts the identifiers generated; [transaction] is the object behind
    [processPayment]'s local constant of that name, which the code mutates
    in place. *)
Record State : Type := mkState {
  provider : nat -> AxiosResult;
  uuids : nat -> string;
  calls : list Request;
  drawn : nat;
  transaction : option Transaction
}.

Definition initial (provider : nat -> AxiosResult) (uuids : nat -> string) : State :=
  mkState provider uuids [] 0 None.

(** ** Computations: state plus exceptions

    A thrown error keeps the state reached so far: requests already sent
    stay sent when control enters a [catch] block. *)
Definition M (A : Type) : Type := State -> Completion A * State.

Definition ret {A} (a : A) : M A := fun s => (Normal a, s).

Definition bind {A B} (c : M A) (k : A -> M B) : M B :=
  fun s => match c s with
           | (Normal a, s') => k a s'
           | (Throw e, s') => (Throw e, s')
           | (Unsettled, s') => (Unsettled, s')
           end.

Definition throw {A} (e : JSError) : M A := fun s => (Throw e, s).

Definition try_catch {A} (block : M A) (handler : JSError -> M A) : M A :=
  fun s => match block s with
           | (Normal a, s') => (Normal a, s')
           | (Throw e, s') => handler e s'
           | (Unsettled, s') => (Unsettled, s')
           end.

Definition lift {A} (c : Completion A) : M A := fun s => (c, s).

(** A promise still pending when the fuel is spent. *)
Definition unsettled {A} : M A := fun s => (Unsettled, s).

Declare Scope js_scope.
Delimit Scope js_scope with js.
Notation "x <- c ;; k" := (bind c (fun x => k))
  (at level 61, c at next level, right associativity) : js_scope.
Notation "c ;; k" := (bind c (fun _ => k))
  (at level 61, right associativity) : js_scope.
Open Scope js_scope.

(** [uuidv4()]. *)
Definition uuidv4 : M string :=
  fun s => (Normal (uuids s (drawn s)),
            mkState (provider s) (uuids s) (calls s) (S (drawn s)) (transaction s)).

(** [await axios.post(url, body, config)]. *)
Definition axios_post (url : string) (body : JSValue) (config : RequestConfig)
  : M Response :=
  fun s =>
    let s' := mkState (provider s) (uuids s) (calls s ++ [mkRequest url body config])
                      (drawn s) (transaction s) in
    match provider s (List.length (calls s)) with
    | Resolves r => (Normal r, s')
    | Rejects e => (Throw e, s')
    end.

(** Creation of, assignment to and reading of the local [transaction]. *)
Definition new_transaction (t : Transaction) : M unit :=
  fun s => (Normal tt, mkState (provider s) (uuids s) (calls s) (drawn s) (Some t)).

Definition assign (f : Transaction -> Transaction) : M unit :=
  fun s => (Normal tt,
            mkState (provider s) (uuids s) (calls s) (drawn s)
                    (option_map f (transaction s))).

Definition read_transaction : M Transaction :=
  fun s => match transaction s with
           | Some t => (Normal t, s)
           | None =>
               (Throw (mkError ReferenceError_
                         "Cannot access 'transaction' before initialization"
                         VUndefined), s)
           end.

(* ===================================================================== *)
(** * The processor ([services/PaymentProcessor.ts]) *)
(* ===================================================================== *)

(** Calls to the logger write to the console and to a file and have no
    other effect; they are left out, as is the test [amount > 50000] of
    [processRefund], which only guards a log line. *)

Open Scope string_scope.

Definition MAX_RETRY_ATTEMPTS : number := JSNumber.of_Z 3.

(** The two environment variables read when the module is loaded. *)
Record ProcessEnv : Type := mkEnv {
  env_PAYMENT_PROVIDER_URL : option string;
  env_PAYMENT_API_KEY : option string
}.

(** [process.env.X || fallback]. *)
Definition env_or (v : option string) (fallback : string) : string :=
  match v with
  | Some s => if String.eqb s "" then fallback else s
  | None => fallback
  end.

Definition PAYMENT_PROVIDER_URL (env : ProcessEnv) : string :=
  env_or (env_PAYMENT_PROVIDER_URL env) "https://api.payment-provider.com/v1".

Definition API_KEY (env : ProcessEnv) : string :=
  env_or (env_PAYMENT_API_KEY env) "test_key".

Record PaymentProcessorOptions : Type := mkOptions {
  options_retryAttempts : option number;
  options_logLevel : option string
}.

(** [new PaymentError(message, code)]. *)
Definition PaymentError (message code : JSValue) : JSError :=
  mkError PaymentError_ (Error_message message) code.

(** The class [PaymentProcessor]: its only field, a number, and its
    constructor ([options.retryAttempts || MAX_RETRY_ATTEMPTS]). *)
Record PaymentProcessor : Type := mkProcessor { retryAttempts : number }.

Definition constructor (options : PaymentProcessorOptions) : PaymentProcessor :=
  mkProcessor
    match options_retryAttempts options with
    | Some n => if JSNumber.truthy n then n else MAX_RETRY_ATTEMPTS
    | None => MAX_RETRY_ATTEMPTS
    end.

Definition no_options : PaymentProcessorOptions := mkOptions None None.

(** The default [metadata = {}] of [processPayment]'s last parameter. *)
Definition default_metadata (metadata : JSValue) : JSValue :=
  match metadata with
  | VUndefined => VObject []
  | _ => metadata
  end.

(** [x < y] and [x++] on numbers. *)
Definition less_than (x y : number) : bool := SFltb x y.

Definition increment (x : number) : number :=
  SFadd JSNumber.prec JSNumber.emax x (JSNumber.of_Z 1).

Section Processor.

Variable env : ProcessEnv.
Variable this : PaymentProcessor.

Definition provider_headers : list (string * string) :=
  [("Authorization", "Bearer " ++ API_KEY env);
   ("Content-Type", "application/json")]%string.

(** The body both [axios.post] calls of [processPayment] build. *)
Definition payment_body (decimalAmount : DecimalJS.Decimal) (currency : string)
    (paymentMethod : JSValue) (transactionId : string) (metadata : JSValue)
  : JSValue :=
  VObject [("amount", VString (DecimalJS.toString decimalAmount));
           ("currency", VString currency);
           ("payment_method", paymentMethod);
           ("idempotency_key", VString transactionId);
           ("metadata", metadata)].

(** The closure [processWithRetry] of [processPayment]; [retryCount] is
    the variable it captures and increments.  Nothing bounds the number of
    rounds when [retryAttempts] is infinite, so the model follows the
    closure for [fuel] rounds. *)
Fixpoint processWithRetry (fuel : nat) (decimalAmount : DecimalJS.Decimal)
    (currency : string) (paymentMethod : JSValue) (transactionId : string)
    (metadata : JSValue) (retryCount : number) : M Response :=
  match fuel with
  | O => unsettled
  | S fuel' =>
      try_catch
        (response <- axios_post (PAYMENT_PROVIDER_URL env ++ "/payments")%string
                       (payment_body decimalAmount currency paymentMethod
                          transactionId metadata)
                       (mkConfig provider_headers None) ;;
         ret response)
        (fun error =>
           if less_than retryCount (retryAttempts this) then
             processWithRetry fuel' decimalAmount currency paymentMethod
               transactionId metadata (increment retryCount)
           else throw error)
  end.

(** The [try] block of [processPayment]. *)
Definition processPayment_try (decimalAmount : DecimalJS.Decimal) (currency : string)
    (paymentMethod : JSValue) (transactionId : string) (metadata : JSValue)
  : M Transaction :=
  response <- axios_post (PAYMENT_PROVIDER_URL env ++ "/payments")%string
                (payment_body decimalAmount currency paymentMethod
                   transactionId metadata)
                (mkConfig provider_headers None) ;;
  response_status <- lift (get (data response) "status") ;;
  if strict_eq_string response_status "succeeded" then
    assign (set_status COMPLETED) ;;
    response_id <- lift (get (data response) "id") ;;
    assign (set_providerTransactionId response_id) ;;
    read_transaction
  else
    assign (set_status FAILED) ;;
    response_error <- lift (get (data response) "error") ;;
    assign (set_error response_error) ;;
    error_message <- lift (get response_error "message") ;;
    error_code <- lift (get response_error "code") ;;
    throw (PaymentError
             (or error_message (VString "Payment processing failed"))
             (or error_code (VString "unknown_error"))).

(** Its [catch (error)] block. *)
Definition processPayment_catch (fuel : nat) (decimalAmount : DecimalJS.Decimal)
    (currency : string) (paymentMethod : JSValue) (transactionId : string)
    (metadata : JSValue) (error : JSError) : M Transaction :=
  response <- processWithRetry fuel decimalAmount currency paymentMethod
                transactionId metadata (JSNumber.of_Z 0) ;;
  assign (set_status FAILED) ;;
  assign (set_error
            (VObject [("message", VString (message error));
                      ("code", or (code error) (VString "provider_error"))])) ;;
  throw (PaymentError (VString (message error))
           (or (code error) (VString "provider_error"))).

(** [processPayment].  The object literal for [transaction] is evaluated
    property by property, in the order written: [type] comes fifth, after
    [id], [amount], [currency] and [status], none of which has an
    effect. *)
Definition processPayment (fuel : nat) (amount : number) (currency : string)
    (paymentMethod : JSValue) (metadata : JSValue) : M Transaction :=
  let metadata := default_metadata metadata in
  transactionId <- uuidv4 ;;
  let decimalAmount := DecimalJS.new_Decimal amount in
  transaction_type <- lift (get TransactionType "PAYMENT") ;;
  new_transaction
    {| id := transactionId;
       originalTransactionId := VUndefined;
       providerTransactionId := VUndefined;
       amount := VNumber (DecimalJS.toNumber decimalAmount);
       currency := VString currency;
       status := PENDING;
       type := transaction_type;
       metadata := metadata;
       error := VUndefined |} ;;
  try_catch
    (processPayment_try decimalAmount currency paymentMethod transactionId metadata)
    (processPayment_catch fuel decimalAmount currency paymentMethod
       transactionId metadata).

(** An optional [amount?: number] argument as a value. *)
Definition optional (amount : option number) : JSValue :=
  match amount with
  | Some x => VNumber x
  | None => VUndefined
  end.

(** [amount ? amount.toString() : undefined]. *)
Definition amount_field (amount : option number) : JSValue :=
  match amount with
  | Some x => if JSNumber.truthy x then VString (JSNumber.toString x) else VUndefined
  | None => VUndefined
  end.

(** [amount || response.data.amount]: the right operand is read only when
    the left one is falsy. *)
Definition amount_or_response (amount : option number) (response : Response)
  : Completion JSValue :=
  if truthy (optional amount) then Normal (optional amount)
  else get (data response) "amount".

(** [processRefund].  The properties of the record are evaluated in the
    order written: [id], [amount], [currency], then [type], then
    [providerTransactionId]. *)
Definition processRefund (transactionId : string) (amount : option number)
  : M Transaction :=
  try_catch
    (response <- axios_post (PAYMENT_PROVIDER_URL env ++ "/refunds")%string
                   (VObject [("transaction_id", VString transactionId);
                             ("amount", amount_field amount)])
                   (mkConfig provider_headers (Some 30000)) ;;
     refund_id <- uuidv4 ;;
     refund_amount <- lift (amount_or_response amount response) ;;
     response_currency <- lift (get (data response) "currency") ;;
     transaction_type <- lift (get TransactionType "REFUND") ;;
     response_id <- lift (get (data response) "id") ;;
     ret {| id := refund_id;
            originalTransactionId := VString transactionId;
            providerTransactionId := response_id;
            amount := refund_amount;
            currency := response_currency;
            status := COMPLETED;
            type := transaction_type;
            metadata := VUndefined;
            error := VUndefined |})
    (fun error =>
       throw (PaymentError
                (VString ("Failed to process refund: " ++ message error))
                (or (code error) (VString "refund_error")))).

Definition capturePayment (authorizationId : string) (amount : option number)
  : M Transaction :=
  try_catch
    (response <- axios_post (PAYMENT_PROVIDER_URL env ++ "/captures")%string
                   (VObject [("authorization_id", VString authorizationId);
                             ("amount", amount_field amount)])
                   (mkConfig provider_headers (Some 30000)) ;;
     capture_id <- uuidv4 ;;
     capture_amount <- lift (amount_or_response amount response) ;;
     response_currency <- lift (get (data response) "currency") ;;
     transaction_type <- lift (get TransactionType "CAPTURE") ;;
     response_id <- lift (get (data response) "id") ;;
     ret {| id := capture_id;
            originalTransactionId := VString authorizationId;
            providerTransactionId := response_id;
            amount := capture_amount;
            currency := response_currency;
            status := COMPLETED;
            type := transaction_type;
            metadata := VUndefined;
            error := VUndefined |})
    (fun error =>
       throw (PaymentError
                (VString ("Failed to capture payment: " ++ message error))
                (or (code error) (VString "capture_error")))).

End Processor.

(* ===================================================================== *)
(** * Vocabulary of the design document *)
(* ===================================================================== *)

(** Running an operation on a fresh state. *)
Definition run {A} (op : M A) (provider : nat -> AxiosResult)
    (uuids : nat -> string) : Completion A * State :=
  op (initial provider uuids).

Definition result {A} (r : Completion A * State) : Completion A := fst r.

(** The record an operation returned, if it returned. *)
Definition returned (c : Completion Transaction) : option Transaction :=
  match c with
  | Normal t => Some t
  | _ => None
  end.

(** The requests the provider received, oldest first. *)
Definition submissions {A} (r : Completion A * State) : list Request :=
  calls (snd r).

(** The [Transaction] object of [processPayment] as the operation left it. *)
Definition record {A} (r : Completion A * State) : option Transaction :=
  transaction (snd r).

(** The provider outcomes of the design (section 4.2), read off what the
    HTTP client hands back: [Accepted] is a response whose [status] is
    ["succeeded"]; [Declined] is an application-level ["failed"] response
    carrying an [error]; [TransientFailure] is a rejected call (network
    failure, timeout, 5xx). *)
Definition Accepted (providerTransactionId : string) : AxiosResult :=
  Resolves (mkResponse (VObject [("status", VString "succeeded");
                                 ("id", VString providerTransactionId)])).

Definition Declined (message code : string) : AxiosResult :=
  Resolves (mkResponse
              (VObject [("status", VString "failed");
                        ("error", VObject [("message", VString message);
                                           ("code", VString code)])])).

Definition TransientFailure (e : JSError) : AxiosResult := Rejects e.

(** A provider that answers from a script, then keeps giving [last]. *)
Definition script (outcomes : list AxiosResult) (last : AxiosResult)
  : nat -> AxiosResult :=
  fun n => nth n outcomes last.

(** The typed errors of the design's taxonomy (section 7).  The code
    defines only one of them, the class [PaymentError]. *)
Inductive TypedError : Type :=
| ValidationError
| PaymentErrorOf (code : JSValue)
| TimeoutError.

Definition typed (e : JSError) : option TypedError :=
  match class e with
  | PaymentError_ => Some (PaymentErrorOf (code e))
  | _ => None
  end.

(** An operation's result honours the single result contract when it is a
    record or one typed error. *)
Definition typed_result (c : Completion Transaction) : Prop :=
  match c with
  | Normal _ => True
  | Throw e => typed e <> None
  | Unsettled => False
  end.

(** The [TypeError] of reading a member of [TransactionType]. *)
Definition no_member (k : string) : JSError :=
  mkError TypeError_
    ("Cannot read properties of undefined (reading '" ++ k ++ "')") VUndefined.

(** The one request [processRefund] sends, and that of [capturePayment]. *)
Definition refund_request (env : ProcessEnv) (transactionId : string)
    (amount : option number) : Request :=
  mkRequest (PAYMENT_PROVIDER_URL env ++ "/refunds")
    (VObject [("transaction_id", VString transactionId);
              ("amount", amount_field amount)])
    (mkConfig (provider_headers env) (Some 30000)).

Definition capture_request (env : ProcessEnv) (authorizationId : string)
    (amount : option number) : Request :=
  mkRequest (PAYMENT_PROVIDER_URL env ++ "/captures")
    (VObject [("authorization_id", VString authorizationId);
              ("amount", amount_field amount)])
    (mkConfig (provider_headers env) (Some 30000)).

(** The error that ends the [try] block of [processRefund] or
    [capturePayment] once the request has been answered: that of the
    first of three reads to fail, the last of which, the member [k] of
    [TransactionType], always does. *)
Definition first_failure (amount : option number) (response : Response)
    (k : string) : JSError :=
  match amount_or_response amount response with
  | Throw e => e
  | _ =>
      match get (data response) "currency" with
      | Throw e => e
      | _ => no_member k
      end
  end.

(** The refund guard of the design (section 4.4): a refund request above
    the refundable remainder is rejected with a [ValidationError] before
    anything is sent. *)
Definition rejected_before_any_call (r : Completion Transaction * State) : Prop :=
  (exists e, result r = Throw e /\ typed e = Some ValidationError) /\
  submissions r = [].

Definition refund_guard (env : ProcessEnv) (originalTransactionId : string)
    (requested remainder : number) (provider : nat -> AxiosResult)
    (uuids : nat -> string) : Prop :=
  SFltb remainder requested = true ->
  rejected_before_any_call
    (run (processRefund env originalTransactionId (Some requested)) provider uuids).

(** ** The scenarios of the test suite and of the design's section 8 *)

Definition default_env : ProcessEnv := mkEnv None None.

(** [new PaymentProcessor()]. *)
Definition default_processor : PaymentProcessor := constructor no_options.

Definition test_card : JSValue :=
  VObject [("type", VString "card");
           ("card", VObject [("number", VString "4242424242424242");
                             ("expiryMonth", VNumber (JSNumber.of_Z 12));
                             ("expiryYear", VNumber (JSNumber.of_Z 2025));
                             ("cvv", VString "123")])].

Definition uuid_stream (n : nat) : string :=
  "uuid-" ++ JSNumber.digits_of_N (N.of_nat n).

(** [new Error('Network error')]. *)
Definition network_error : JSError := mkError Error_ "Network error" VUndefined.

(** A connection that timed out, as the HTTP client reports it. *)
Definition timeout_error : JSError :=
  mkError Error_ "connect ETIMEDOUT" (VString "ETIMEDOUT").

(** A response of the provider to a payment, a refund or a capture, as the
    test suite has it. *)
Definition provider_response (id status amount currency : string) : AxiosResult :=
  Resolves (mkResponse (VObject [("id", VString id);
                                 ("status", VString status);
                                 ("amount", VString amount);
                                 ("currency", VString currency)])).

Definition refund_response (refundId amount currency : string) : AxiosResult :=
  provider_response refundId "succeeded" amount currency.

(** A provider that rejects every call. *)
Definition provider_down : nat -> AxiosResult :=
  fun _ => Rejects network_error.

(* ===================================================================== *)
(** * JavaScript strings and regular expressions *)
(* ===================================================================== *)

(** The card validator looks inside its strings, so there a string is what
    it is in JavaScript: a sequence of UTF-16 code units.  Regular
    expressions without the [u] flag work on code units too. *)
Module JSString.
Local Open Scope list_scope.

Definition jsstring : Type := list N.

(** The code units of an ASCII literal. *)
Definition of_string (s : string) : jsstring :=
  map N_of_ascii (list_ascii_of_string s).

Definition chr (c : ascii) : N := N_of_ascii c.

(** [\d]. *)
Definition is_digit (c : N) : bool := ((48 <=? c) && (c <=? 57))%N.

(** The line terminators, which [.] does not match. *)
Definition is_line_terminator (c : N) : bool :=
  ((c =? 10) || (c =? 13) || (c =? 0x2028) || (c =? 0x2029))%N.

(** [\s], which is also what [trim] strips: white space and line
    terminators. *)
Definition is_space (c : N) : bool :=
  (((9 <=? c) && (c <=? 13)) || (c =? 32) || (c =? 160) || (c =? 0x1680) ||
   ((0x2000 <=? c) && (c <=? 0x200A)) || (c =? 0x2028) || (c =? 0x2029) ||
   (c =? 0x202F) || (c =? 0x205F) || (c =? 0x3000) || (c =? 0xFEFF))%N.

(** [s.replace(/\s/g, '')], and equally [s.replace(/\s+/g, '')]. *)
Definition remove_spaces (s : jsstring) : jsstring :=
  filter (fun c => negb (is_space c)) s.

Fixpoint trim_start (s : jsstring) : jsstring :=
  match s with
  | c :: t => if is_space c then trim_start t else s
  | [] => []
  end.

(** [s.trim()]. *)
Definition trim (s : jsstring) : jsstring :=
  rev (trim_start (rev (trim_start s))).

(** [s.slice(-n)]: the last [n] code units, or all of [s]. *)
Definition slice_last (n : nat) (s : jsstring) : jsstring :=
  skipn (List.length s - n) s.

(** The regular expressions the validator uses. *)
Inductive regex : Type :=
| Lit (c : N)                  (* a literal character *)
| Digit                        (* \d *)
| Range (lo hi : N)            (* [lo-hi] *)
| OneOf (cs : list N)          (* [abc] *)
| Seq (r1 r2 : regex)          (* r1 r2 *)
| Alt (r1 r2 : regex)          (* r1 | r2 *)
| Opt (r : regex)              (* r? *)
| Times (n : nat) (r : regex)  (* r{n} *)
| Plus (r : regex).            (* r+ *)

Definition one (test : N -> bool) (s : jsstring) : list jsstring :=
  match s with
  | c :: t => if test c then [t] else []
  | [] => []
  end.

(** [n] rounds of [step], each on what the round before left. *)
Fixpoint rounds (step : jsstring -> list jsstring) (n : nat) (s : jsstring)
  : list jsstring :=
  match n with
  | O => [s]
  | S n' => flat_map (rounds step n') (step s)
  end.

(** One round or more, the longer matches first; [fuel] bounds the number
    of rounds by the length of the input. *)
Fixpoint at_least_once (step : jsstring -> list jsstring) (fuel : nat)
    (s : jsstring) : list jsstring :=
  match fuel with
  | O => []
  | S fuel' =>
      flat_map (fun rest => at_least_once step fuel' rest ++ [rest]) (step s)
  end.

(** [matches r s]: what is left of [s] after each way of matching [r] at
    its start, in the order a backtracking matcher tries them. *)
Fixpoint matches (r : regex) (s : jsstring) : list jsstring :=
  match r with
  | Lit c => one (N.eqb c) s
  | Digit => one is_digit s
  | Range lo hi => one (fun c => ((lo <=? c) && (c <=? hi))%N) s
  | OneOf cs => one (fun c => existsb (N.eqb c) cs) s
  | Seq r1 r2 => flat_map (matches r2) (matches r1 s)
  | Alt r1 r2 => matches r1 s ++ matches r2 s
  | Opt r' => matches r' s ++ [s]
  | Times n r' => rounds (matches r') n s
  | Plus r' => at_least_once (matches r') (List.length s) s
  end.

Definition is_empty (s : jsstring) : bool :=
  match s with
  | [] => true
  | _ => false
  end.

(** [/^r$/.test(s)]. *)
Definition test (r : regex) (s : jsstring) : bool :=
  existsb is_empty (matches r s).

(** The lengths of the strings a regular expression without [+] matches,
    and whether it matches digits only: two readings of a pattern that the
    facts below relate to [matches]. *)
Definition add_widths (w1 w2 : list nat) : list nat :=
  flat_map (fun a => map (Nat.add a) w2) w1.

Fixpoint times_widths (n : nat) (w : list nat) : list nat :=
  match n with
  | O => [0%nat]
  | S n' => add_widths w (times_widths n' w)
  end.

Fixpoint widths (r : regex) : list nat :=
  match r with
  | Lit _ | Digit | Range _ _ | OneOf _ => [1%nat]
  | Seq r1 r2 => add_widths (widths r1) (widths r2)
  | Alt r1 r2 => widths r1 ++ widths r2
  | Opt r' => widths r' ++ [0%nat]
  | Times n r' => times_widths n (widths r')
  | Plus _ => []
  end.

Fixpoint plus_free (r : regex) : bool :=
  match r with
  | Lit _ | Digit | Range _ _ | OneOf _ => true
  | Seq r1 r2 | Alt r1 r2 => plus_free r1 && plus_free r2
  | Opt r' | Times _ r' => plus_free r'
  | Plus _ => false
  end.

Fixpoint digits_only (r : regex) : bool :=
  match r with
  | Lit c => is_digit c
  | Digit => true
  | Range lo hi => is_digit lo && is_digit hi
  | OneOf cs => forallb is_digit cs
  | Seq r1 r2 | Alt r1 r2 => digits_only r1 && digits_only r2
  | Opt r' | Times _ r' | Plus r' => digits_only r'
  end.

(** What a match consumed: a prefix of the input whose length is one of
    the pattern's widths, made of digits when the pattern is. *)
Definition consumed (r : regex) (s rest : jsstring) : Prop :=
  exists p, s = p ++ rest /\ In (List.length p) (widths r) /\
            (digits_only r = true -> forallb is_digit p = true).

End JSString.

(* ===================================================================== *)
(** * The card validator ([utils/CreditCardValidator.ts]) *)
(* ===================================================================== *)

Module CreditCardValidator.
Import JSString.
Local Open Scope list_scope.

Inductive CardType : Type := VISA | MASTERCARD | AMEX | DISCOVER | UNKNOWN.

Record CreditCardDetails : Type := mkCard {
  number : jsstring;
  expiryMonth : JSNumber.number;
  expiryYear : JSNumber.number;
  cvv : jsstring;
  cardholderName : option jsstring
}.

Record ValidationResult : Type := mkResult {
  isValid : bool;
  errors : option (list string);
  cardType : option CardType
}.

(** What [validate] reads of [new Date()]: the local year, and the month
    counted from 0. *)
Record Date : Type := mkDate {
  getFullYear : Z;
  getMonth : Z
}.

(** An entry written by [logger.error(message, {cardNumber, errors})]. *)
Record LogEntry : Type := mkLog {
  message : string;
  log_cardNumber : jsstring;
  log_errors : list string
}.

(** [x < y] and [x === y] on numbers. *)
Definition lt (x y : JSNumber.number) : bool := SFltb x y.
Definition strict_eq (x y : JSNumber.number) : bool := SFeqb x y.

Definition CardType_eqb (a b : CardType) : bool :=
  match a, b with
  | VISA, VISA | MASTERCARD, MASTERCARD | AMEX, AMEX
  | DISCOVER, DISCOVER | UNKNOWN, UNKNOWN => true
  | _, _ => false
  end.

Definition d (c : ascii) : regex := Lit (chr c).
Definition range (lo hi : ascii) : regex := Range (chr lo) (chr hi).

(** [/^4\d{12}(\d{3})?$/]. *)
Definition visa_pattern : regex :=
  Seq (d "4") (Seq (Times 12 Digit) (Opt (Times 3 Digit))).

(** [/^(5[1-5]\d{4}|2(2(2[1-9]|[3-9]\d)|[3-6]\d{2}|7([0-1]\d|20)))\d{10}$/]. *)
Definition mastercard_pattern : regex :=
  Seq (Alt (Seq (d "5") (Seq (range "1" "5") (Times 4 Digit)))
           (Seq (d "2")
                (Alt (Seq (d "2")
                          (Alt (Seq (d "2") (range "1" "9"))
                               (Seq (range "3" "9") Digit)))
                     (Alt (Seq (range "3" "6") (Times 2 Digit))
                          (Seq (d "7")
                               (Alt (Seq (range "0" "1") Digit)
                                    (Seq (d "2") (d "0"))))))))
      (Times 10 Digit).

(** [/^3[47]\d{13}$/]. *)
Definition amex_pattern : regex :=
  Seq (d "3") (Seq (OneOf [chr "4"; chr "7"]) (Times 13 Digit)).

(** [/^6(?:011|5\d{2})\d{12}$/]. *)
Definition discover_pattern : regex :=
  Seq (d "6")
      (Seq (Alt (Seq (d "0") (Seq (d "1") (d "1")))
                (Seq (d "5") (Times 2 Digit)))
           (Times 12 Digit)).

Definition detectCardType (cardNumber : jsstring) : CardType :=
  let cleanNumber := remove_spaces cardNumber in
  if test visa_pattern cleanNumber then VISA
  else if test mastercard_pattern cleanNumber then MASTERCARD
  else if test amex_pattern cleanNumber then AMEX
  else if test discover_pattern cleanNumber then DISCOVER
  else UNKNOWN.

(** [/^\d+$/.test(value.replace(/\s/g, ''))]. *)
Definition isNumeric (value : jsstring) : bool :=
  test (Plus Digit) (remove_spaces value).

(** [cleanNumber.replace(/^(\d{4})(\d{6})(\d{5})$/, '$1 $2 $3')]: the three
    groups have fixed widths, so they are the code units 0-3, 4-9 and
    10-14. *)
Definition group_4_6_5 (cleanNumber : jsstring) : jsstring :=
  if test (Seq (Times 4 Digit) (Seq (Times 6 Digit) (Times 5 Digit))) cleanNumber
  then (firstn 4 cleanNumber ++ [chr " "] ++
        firstn 6 (skipn 4 cleanNumber) ++ [chr " "] ++
        skipn 10 cleanNumber)%list
  else cleanNumber.

(** [cleanNumber.replace(/\d{4}(?=.)/g, '$& ')]: scanning from the left,
    four digits that something other than a line terminator follows get a
    space after them, and the scan resumes behind them; anything else is
    copied one code unit at a time. *)
Fixpoint space_after_4_digits (s : jsstring) : jsstring :=
  match s with
  | [] => []
  | a :: t =>
      match t with
      | b :: c :: e :: (f :: _) as rest =>
          if is_digit a && is_digit b && is_digit c && is_digit e &&
             negb (is_line_terminator f)
          then a :: b :: c :: e :: chr " " :: space_after_4_digits rest
          else a :: space_after_4_digits t
      | _ => a :: space_after_4_digits t
      end
  end.

Definition formatCardNumber (cardNumber : jsstring) : jsstring :=
  let cleanNumber := remove_spaces cardNumber in
  match detectCardType cleanNumber with
  | AMEX => group_4_6_5 cleanNumber
  | _ => space_after_4_digits cleanNumber
  end.

(** What [maskCardNumber] ends with: a string, or the [RangeError] of
    ['*'.repeat] for a negative count. *)
Inductive Masked : Type :=
| Masked_as (s : jsstring)
| Throws_RangeError.

(** ['*'.repeat(count)]. *)
Definition stars (count : Z) : option jsstring :=
  if (count <? 0)%Z then None else Some (repeat (chr "*") (Z.to_nat count)).

Definition maskCardNumber (cardNumber : jsstring) : Masked :=
  let cleanNumber := remove_spaces cardNumber in
  let lastFourDigits := slice_last 4 cleanNumber in
  match stars (Z.of_nat (List.length cleanNumber) - 4) with
  | Some maskedPart => Masked_as (maskedPart ++ lastFourDigits)%list
  | None => Throws_RangeError
  end.

(** [errors.push(message)]. *)
Definition push (errors : list string) (message : string) : list string :=
  (errors ++ [message])%list.

(** [validate(card)], run at [currentDate]; it returns its result and what
    it logged. *)
Definition validate (currentDate : Date) (card : CreditCardDetails)
  : ValidationResult * list LogEntry :=
  let errors : list string := [] in
  (* Check card number *)
  let errors :=
    if is_empty (number card) || is_empty (trim (number card))
    then push errors "Card number is required"
    else if negb (isNumeric (remove_spaces (number card)))
    then push errors "Card number must contain only digits"
    else errors in
  (* Check expiry date *)
  let currentYear := JSNumber.of_Z (getFullYear currentDate) in
  let currentMonth := JSNumber.of_Z (getMonth currentDate + 1) in
  let errors :=
    if negb (JSNumber.truthy (expiryMonth card)) ||
       lt (expiryMonth card) (JSNumber.of_Z 1) ||
       lt (JSNumber.of_Z 12) (expiryMonth card)
    then push errors "Invalid expiry month"
    else errors in
  let errors :=
    if negb (JSNumber.truthy (expiryYear card)) ||
       lt (expiryYear card) currentYear
    then push errors "Card has expired"
    else if strict_eq (expiryYear card) currentYear &&
            lt (expiryMonth card) currentMonth
    then push errors "Card has expired"
    else errors in
  (* Check CVV *)
  let errors :=
    if is_empty (cvv card) || is_empty (trim (cvv card))
    then push errors "CVV is required"
    else if negb (isNumeric (cvv card))
    then push errors "CVV must contain only digits"
    else
      let cardType := detectCardType (number card) in
      if CardType_eqb cardType AMEX &&
         negb (List.length (cvv card) =? 4)%nat
      then push errors "American Express cards require a 4-digit CVV"
      else if negb (CardType_eqb cardType AMEX) &&
              negb (List.length (cvv card) =? 3)%nat
      then push errors "CVV must be 3 digits"
      else errors in
  (* Determine card type *)
  let cardType := detectCardType (number card) in
  if (0 <? List.length errors)%nat
  then (mkResult false (Some errors) (Some cardType),
        [mkLog "Credit card validation failed" (number card) errors])
  else (mkResult true None (Some cardType), []).

End CreditCardValidator.


(* ===================================================================== *)
(** * The HTTP handlers ([api/controllers/TransactionController.ts]) *)
(* ===================================================================== *)

(** The handlers run the module's own [paymentProcessor], a
    [new PaymentProcessor()].  A request is what a handler reads of it,
    with the types [processPayment] and [processRefund] declare for what
    they are handed; a response is the status set and the JSON body sent.
    Calls to the logger are left out. *)
Module TransactionController.

(** [req.headers['user-id']]. *)
Definition header (value : option string) : JSValue :=
  match value with
  | Some s => VString s
  | None => VUndefined
  end.

(** [POST /transactions]. *)
Record CreateRequest : Type := mkCreate {
  create_amount : number;
  create_currency : string;
  create_paymentMethod : JSValue;
  create_metadata : JSValue;
  create_user_id : option string
}.

(** [POST /transactions/:id/refund]. *)
Record RefundRequest : Type := mkRefund {
  refund_id : string;
  refund_amount : option number;
  refund_user_id : option string
}.

(** The three shapes of body the handlers send. *)
Inductive Json : Type :=
| Success (data : Transaction)               (* {success: true, data} *)
| Failure (message : string) (code : JSValue)
                                 (* {success: false, error: {message, code}} *)
| FailureMessage (message : string).         (* {success: false, message} *)

Record HttpResponse : Type := mkHttp {
  statusCode : Z;
  json : Json
}.

(** The own properties a spread copies: those of an object, the indexed
    characters of a string, none of any other value. *)
Fixpoint characters (i : N) (s : string) : list (string * JSValue) :=
  match s with
  | EmptyString => []
  | String c rest =>
      (JSNumber.digits_of_N i, VString (String c EmptyString))
        :: characters (i + 1) rest
  end.

Definition spread (v : JSValue) : list (string * JSValue) :=
  match v with
  | VObject fields => fields
  | VString s => characters 0 s
  | _ => []
  end.

(** Defining property [k] in an object literal: an earlier property of
    that name keeps its place and takes the new value. *)
Fixpoint define (k : string) (v : JSValue) (fields : list (string * JSValue))
  : list (string * JSValue) :=
  match fields with
  | [] => [(k, v)]
  | (k', v') :: rest =>
      if String.eqb k k' then (k, v) :: rest
      else (k', v') :: define k v rest
  end.

Section Handlers.

Variable env : ProcessEnv.

(** The rounds for which the model follows the retry loop of
    [processPayment]. *)
Variable fuel : nat.

Definition paymentProcessor : PaymentProcessor := constructor no_options.

Definition createTransaction (req : CreateRequest) : M HttpResponse :=
  let userId := header (create_user_id req) in
  try_catch
    (transaction <-
       processPayment env paymentProcessor fuel
         (create_amount req) (create_currency req) (create_paymentMethod req)
         (VObject (define "userId" userId (spread (create_metadata req)))) ;;
     ret (mkHttp 201 (Success transaction)))
    (fun error =>
       match class error with
       | PaymentError_ =>
           ret (mkHttp 400 (Failure (message error) (code error)))
       | _ =>
           ret (mkHttp 500 (Failure "An unexpected error occurred"
                              (VString "internal_error")))
       end).

Definition refundTransaction (req : RefundRequest) : M HttpResponse :=
  let userId := header (refund_user_id req) in
  if negb (truthy userId) then
    ret (mkHttp 401 (Failure "Authentication required"
                       (VString "auth_required")))
  else
    try_catch
      (refundTransaction <-
         processRefund env (refund_id req) (refund_amount req) ;;
       ret (mkHttp 200 (Success refundTransaction)))
      (fun error => ret (mkHttp 400 (FailureMessage (message error)))).

End Handlers.

End TransactionController.

(* ===================================================================== *)
(** * Facts about numbers and decimals *)
(* ===================================================================== *)

Module NumberFacts.
Import JSNumber.

Lemma digits2_pos_iter (n k : positive) :
  digits2_pos (Pos.iter xO n k) = (digits2_pos n + k)%positive.
Proof.
  induction k using Pos.peano_ind.
  - cbn. lia.
  - rewrite Pos.iter_succ. cbn. rewrite IHk. lia.
Qed.

Lemma Zpos_iter_xO (n k : positive) :
  Zpos (Pos.iter xO n k) = Zpos n * 2 ^ Zpos k.
Proof.
  induction k using Pos.peano_ind.
  - cbn. lia.
  - rewrite Pos.iter_succ, Pos2Z.inj_xO, IHk, Pos2Z.inj_succ, Z.pow_succ_r; lia.
Qed.

(** [digits2_pos n] is the bit length of [n]. *)
Lemma digits2_pos_bound (n : positive) :
  2 ^ (Zpos (digits2_pos n) - 1) <= Zpos n < 2 ^ Zpos (digits2_pos n).
Proof.
  induction n as [n IH|n IH|]; cbn [digits2_pos]; [| |cbn; lia];
    rewrite Pos2Z.inj_succ;
    replace (Z.succ (Zpos (digits2_pos n)) - 1)
      with (Z.succ (Zpos (digits2_pos n) - 1)) by lia;
    rewrite !Z.pow_succ_r by lia;
    generalize dependent (2 ^ (Zpos (digits2_pos n) - 1));
    generalize dependent (2 ^ Zpos (digits2_pos n)); intros; lia.
Qed.

(** Rounding leaves a 53-bit mantissa with an exponent in range alone. *)
Lemma binary_round_aux_canonical (s : bool) (m : positive) (e : Z) :
  Zpos (digits2_pos m) = 53 -> -1074 <= e <= 971 ->
  binary_round_aux prec emax s (Zpos m) e loc_Exact = S754_finite s m e.
Proof.
  intros Hd He.
  unfold binary_round_aux, shr_fexp, fexp, emin, prec, emax.
  cbn [Zdigits2 shr_record_of_loc].
  rewrite Hd.
  replace (Z.max (53 + e - 53) (3 - 1024 - 53) - e) with 0 by lia.
  cbn [shr shr_m loc_of_shr_record round_nearest_even Zdigits2].
  rewrite Hd.
  replace (Z.max (53 + e - 53) (3 - 1024 - 53) - e) with 0 by lia.
  cbn [shr shr_m shr_record_of_loc].
  destruct (Z.leb_spec e (1024 - 53)); [reflexivity | lia].
Qed.

(** An integer below [2^53] is a number: rounding it only shifts it left
    to fill the mantissa. *)
Lemma binary_round_integer (s : bool) (n : positive) :
  Zpos n < 2 ^ 53 ->
  exists (m : positive) (k : Z),
    binary_round prec emax s n 0 = S754_finite s m (- k) /\
    0 <= k <= 52 /\ Zpos m = Zpos n * 2 ^ k.
Proof.
  intros Hn.
  pose proof (digits2_pos_bound n) as [Hlo Hhi].
  assert (Hd : Zpos (digits2_pos n) <= 53).
  { destruct (Z.le_gt_cases (Zpos (digits2_pos n)) 53) as [|Hgt]; [assumption|].
    exfalso.
    assert (2 ^ 53 <= 2 ^ (Zpos (digits2_pos n) - 1))
      by (apply Z.pow_le_mono_r; lia).
    lia. }
  unfold binary_round, shl_align, fexp, emin, prec, emax.
  replace (Z.max (Zpos (digits2_pos n) + 0 - 53) (3 - 1024 - 53) - 0)
    with (Zpos (digits2_pos n) - 53) by lia.
  destruct (Zpos (digits2_pos n) - 53) as [|p|p] eqn:Hdiff; try lia.
  - exists n, 0. split; [|split; [lia|rewrite Z.pow_0_r; lia]].
    apply (binary_round_aux_canonical s n 0); lia.
  - exists (Pos.iter xO n p), (Zpos p). split; [|split].
    + replace (Z.max (Zpos (digits2_pos n) + 0 - 53) (3 - 1024 - 53))
        with (- Zpos p) by lia.
      apply (binary_round_aux_canonical s); [rewrite digits2_pos_iter|]; lia.
    + lia.
    + apply Zpos_iter_xO.
Qed.

(** The number of a positive integer below [2^53] denotes that integer. *)
Lemma to_safe_integer_of_Z (n : positive) :
  Zpos n < 2 ^ 53 ->
  exists m e, of_Z (Zpos n) = S754_finite false m e /\
              to_safe_integer (S754_finite false m e) = Some (Zpos n).
Proof.
  intros Hn.
  destruct (binary_round_integer false n Hn) as (m & k & Hr & Hk & Hm).
  exists m, (- k). split; [exact Hr|].
  unfold to_safe_integer.
  destruct k as [|k|k]; try lia; cbn [Z.opp].
  - rewrite Z.pow_0_r in Hm. f_equal. lia.
  - rewrite Pos2Z.inj_pow, Hm, Z.mod_mul by lia.
    cbn [Z.eqb]. rewrite Z.div_mul by lia. reflexivity.
Qed.

(** An amount that is a whole number of cents survives the conversion to
    [Decimal] and back. *)
Lemma toNumber_new_Decimal_of_Z (cents : Z) :
  0 < cents < 2 ^ 53 ->
  DecimalJS.toNumber (DecimalJS.new_Decimal (of_Z cents)) = of_Z cents.
Proof.
  intros Hc. destruct cents as [|n|n]; try lia.
  destruct (to_safe_integer_of_Z n) as (m & e & Hof & Hint); [lia|].
  rewrite Hof. unfold DecimalJS.new_Decimal. rewrite Hint.
  rewrite <- Hof. cbn. rewrite Pos.mul_1_r. reflexivity.
Qed.

(** Its decimal is the integer itself. *)
Lemma new_Decimal_of_Z (cents : Z) :
  0 < cents < 2 ^ 53 ->
  DecimalJS.new_Decimal (of_Z cents) = DecimalJS.D_Finite false (Z.to_N cents) 0.
Proof.
  intros Hc. destruct cents as [|n|n]; try lia.
  destruct (to_safe_integer_of_Z n) as (m & e & Hof & Hint); [lia|].
  rewrite Hof. unfold DecimalJS.new_Decimal. rewrite Hint. reflexivity.
Qed.

(** No power of two is a multiple of five. *)
Lemma pow2_mod5 (k : positive) : (2 ^ Zpos k) mod 5 <> 0.
Proof.
  assert (H : (2 ^ Zpos k) mod 5 = 1 \/ (2 ^ Zpos k) mod 5 = 2 \/
              (2 ^ Zpos k) mod 5 = 3 \/ (2 ^ Zpos k) mod 5 = 4).
  { induction k using Pos.peano_ind.
    - right; left; reflexivity.
    - rewrite Pos2Z.inj_succ, Z.pow_succ_r, Z.mul_mod by lia.
      destruct IHk as [H|[H|[H|H]]]; rewrite H; cbn; tauto. }
  lia.
Qed.

Lemma not_1999_hundredths (num k : Z) :
  0 <= k -> num * 100 <> 1999 * 2 ^ k.
Proof.
  intros Hk Heq. destruct k as [|k|k]; [cbn in Heq; lia| |lia].
  pose proof (pow2_mod5 k) as H5.
  assert (Hm : (num * 100) mod 5 = (1999 * 2 ^ Zpos k) mod 5)
    by (rewrite Heq; reflexivity).
  replace (num * 100) with (num * 20 * 5) in Hm by lia.
  rewrite Z.mod_mul, Z.mul_mod in Hm by lia.
  change (1999 mod 5) with 4 in Hm.
  assert (Hb : 0 <= (2 ^ Zpos k) mod 5 < 5) by (apply Z.mod_pos_bound; lia).
  assert (Hc : (2 ^ Zpos k) mod 5 = 1 \/ (2 ^ Zpos k) mod 5 = 2 \/
               (2 ^ Zpos k) mod 5 = 3 \/ (2 ^ Zpos k) mod 5 = 4) by lia.
  destruct Hc as [Hc|[Hc|[Hc|Hc]]]; rewrite Hc in Hm; cbn in Hm; discriminate.
Qed.

(** The decimal 19.99 is not a binary64 number: no finite number has
    exactly that value. *)
Lemma no_number_is_19_99 (x : number) (v : Z * Z) :
  exact x = Some v -> ~ same_fraction v (1999, 100).
Proof.
  unfold same_fraction, exact.
  destruct x as [s|s| |s m e]; try discriminate.
  - intros [= <-]. cbn. lia.
  - assert (Hden : exists k, 0 <= k /\ snd (fraction m e) = 2 ^ k).
    { unfold fraction. destruct e as [|p|p]; cbn [snd].
      - exists 0. split; [lia|reflexivity].
      - exists 0. split; [lia|reflexivity].
      - exists (Zpos p). split; [lia|apply Pos2Z.inj_pow]. }
    destruct Hden as (k & Hk & Hden).
    destruct (fraction m e) as [num den]. cbn [snd] in Hden. subst den.
    intros [= <-]. cbn [fst snd]. intros Heq.
    destruct s.
    + apply (not_1999_hundredths (- num) k Hk). lia.
    + apply (not_1999_hundredths num k Hk). lia.
Qed.

End NumberFacts.

(* ===================================================================== *)
(** * What the three operations do *)
(* ===================================================================== *)

(** Reading a property fails with a [TypeError] that has no code. *)
Lemma get_throws_TypeError (v : JSValue) (k : string) (e : JSError) :
  get v k = Throw e -> class e = TypeError_ /\ code e = VUndefined.
Proof.
  destruct v; cbn; intros H; try discriminate; injection H as <-;
    split; reflexivity.
Qed.

Lemma get_settles (v : JSValue) (k : string) : get v k <> Unsettled.
Proof. destruct v; discriminate. Qed.

(** For a response whose body is an object every read of the response
    succeeds, and what fails is the read of [TransactionType]. *)
Lemma first_failure_object (amt : option number)
    (fields : list (string * JSValue)) (k : string) :
  first_failure amt (mkResponse (VObject fields)) k = no_member k.
Proof.
  unfold first_failure, amount_or_response. cbn.
  destruct (truthy (optional amt)); reflexivity.
Qed.

Section PaymentFacts.

Variable env : ProcessEnv.
Variable this : PaymentProcessor.
Variable fuel : nat.
Variables (amt : number) (cur : string) (paymentMethod meta : JSValue).
Variables (prov : nat -> AxiosResult) (ids : nat -> string).

(** [processPayment] ends where it reads [TransactionType.PAYMENT], while
    it builds the record: one identifier has been drawn, no record exists
    and nothing has been sent.  Neither the [try] block nor the retry loop
    is entered. *)
Lemma processPayment_spec :
  run (processPayment env this fuel amt cur paymentMethod meta) prov ids =
    (Throw (no_member "PAYMENT"), mkState prov ids [] 1 None).
Proof. reflexivity. Qed.

End PaymentFacts.

Section RefundFacts.

Variable env : ProcessEnv.
Variables (prov : nat -> AxiosResult) (ids : nat -> string).

(** [processRefund] sends exactly one request, whatever the amount.  If
    the call is rejected the error is wrapped; if it is answered, an
    identifier is drawn and building the record fails, at the latest
    where it reads [TransactionType.REFUND]: that error is wrapped too. *)
Lemma processRefund_spec (transactionId : string) (amt : option number) :
  submissions (run (processRefund env transactionId amt) prov ids) =
    [refund_request env transactionId amt] /\
  match prov 0%nat with
  | Rejects e =>
      result (run (processRefund env transactionId amt) prov ids) =
        Throw (PaymentError
                 (VString ("Failed to process refund: " ++ message e))
                 (or (code e) (VString "refund_error"))) /\
      drawn (snd (run (processRefund env transactionId amt) prov ids)) = 0%nat
  | Resolves response =>
      result (run (processRefund env transactionId amt) prov ids) =
        Throw (PaymentError
                 (VString ("Failed to process refund: " ++
                           message (first_failure amt response "REFUND")))
                 (VString "refund_error")) /\
      drawn (snd (run (processRefund env transactionId amt) prov ids)) = 1%nat
  end.
Proof.
  unfold submissions, result, run, processRefund, try_catch, bind, axios_post,
    uuidv4, lift, throw, initial, first_failure. cbn.
  destruct (prov 0%nat) as [response|e] eqn:Hp; cbn;
    [|split; [reflexivity|split; reflexivity]].
  destruct (amount_or_response amt response) as [a|e|] eqn:Ha; cbn.
  - destruct (get (data response) "currency") as [c|e|] eqn:Hc; cbn.
    + split; [reflexivity|split; reflexivity].
    + destruct (get_throws_TypeError _ _ _ Hc) as [_ ->].
      split; [reflexivity|split; reflexivity].
    + destruct (get_settles _ _ Hc).
  - assert (Hcode : code e = VUndefined).
    { unfold amount_or_response in Ha.
      destruct (truthy (optional amt)); [discriminate|].
      exact (proj2 (get_throws_TypeError _ _ _ Ha)). }
    rewrite Hcode. split; [reflexivity|split; reflexivity].
  - unfold amount_or_response in Ha.
    destruct (truthy (optional amt)); [discriminate|].
    destruct (get_settles _ _ Ha).
Qed.

Lemma capturePayment_spec (authorizationId : string) (amt : option number) :
  submissions (run (capturePayment env authorizationId amt) prov ids) =
    [capture_request env authorizationId amt] /\
  match prov 0%nat with
  | Rejects e =>
      result (run (capturePayment env authorizationId amt) prov ids) =
        Throw (PaymentError
                 (VString ("Failed to capture payment: " ++ message e))
                 (or (code e) (VString "capture_error"))) /\
      drawn (snd (run (capturePayment env authorizationId amt) prov ids)) = 0%nat
  | Resolves response =>
      result (run (capturePayment env authorizationId amt) prov ids) =
        Throw (PaymentError
                 (VString ("Failed to capture payment: " ++
                           message (first_failure amt response "CAPTURE")))
                 (VString "capture_error")) /\
      drawn (snd (run (capturePayment env authorizationId amt) prov ids)) = 1%nat
  end.
Proof.
  unfold submissions, result, run, capturePayment, try_catch, bind, axios_post,
    uuidv4, lift, throw, initial, first_failure. cbn.
  destruct (prov 0%nat) as [response|e] eqn:Hp; cbn;
    [|split; [reflexivity|split; reflexivity]].
  destruct (amount_or_response amt response) as [a|e|] eqn:Ha; cbn.
  - destruct (get (data response) "currency") as [c|e|] eqn:Hc; cbn.
    + split; [reflexivity|split; reflexivity].
    + destruct (get_throws_TypeError _ _ _ Hc) as [_ ->].
      split; [reflexivity|split; reflexivity].
    + destruct (get_settles _ _ Hc).
  - assert (Hcode : code e = VUndefined).
    { unfold amount_or_response in Ha.
      destruct (truthy (optional amt)); [discriminate|].
      exact (proj2 (get_throws_TypeError _ _ _ Ha)). }
    rewrite Hcode. split; [reflexivity|split; reflexivity].
  - unfold amount_or_response in Ha.
    destruct (truthy (optional amt)); [discriminate|].
    destruct (get_settles _ _ Ha).
Qed.

(** Both operations always end in a [PaymentError]: no record is
    returned, and the error is a typed one. *)
Lemma processRefund_throws (transactionId : string) (amt : option number) :
  exists e,
    result (run (processRefund env transactionId amt) prov ids) = Throw e /\
    class e = PaymentError_.
Proof.
  destruct (processRefund_spec transactionId amt) as [_ Hr].
  destruct (prov 0%nat); destruct Hr as [-> _]; eexists; split; reflexivity.
Qed.

Lemma capturePayment_throws (authorizationId : string) (amt : option number) :
  exists e,
    result (run (capturePayment env authorizationId amt) prov ids) = Throw e /\
    class e = PaymentError_.
Proof.
  destruct (capturePayment_spec authorizationId amt) as [_ Hr].
  destruct (prov 0%nat); destruct Hr as [-> _]; eexists; split; reflexivity.
Qed.

Lemma processRefund_typed_result (transactionId : string) (amt : option number) :
  typed_result (result (run (processRefund env transactionId amt) prov ids)).
Proof.
  destruct (processRefund_throws transactionId amt) as (e & -> & Hc).
  unfold typed_result, typed. rewrite Hc. discriminate.
Qed.

Lemma capturePayment_typed_result (authorizationId : string) (amt : option number) :
  typed_result (result (run (capturePayment env authorizationId amt) prov ids)).
Proof.
  destruct (capturePayment_throws authorizationId amt) as (e & -> & Hc).
  unfold typed_result, typed. rewrite Hc. discriminate.
Qed.

End RefundFacts.

(* ===================================================================== *)
(** * The properties of the design document *)
(* ===================================================================== *)

(** C9 (the code does otherwise).  The successful payment of the test
    suite: 1000 cents in USD, which the provider would accept as
    ["test_transaction_123"].  [processPayment] returns no record: it
    throws the [TypeError] of reading [TransactionType.PAYMENT] while it
    builds the record, before it sends anything. *)
Theorem processPayment_accepted_first_attempt_returns_no_record (fuel : nat) :
  let r := run (processPayment default_env default_processor fuel
                  (JSNumber.of_Z 1000) "USD" test_card VUndefined)
             (script [] (provider_response "test_transaction_123" "succeeded"
                           "1000" "USD"))
             uuid_stream in
  result r =
    Throw (mkError TypeError_
             "Cannot read properties of undefined (reading 'PAYMENT')"
             VUndefined) /\
  returned (result r) = None /\
  submissions r = [].
Proof. cbv zeta. rewrite processPayment_spec. repeat split. Qed.

(** C1 (the code does otherwise).  The scenario of the design's section 8:
    the provider would time out twice, then accept.  [processPayment]
    throws the [TypeError] of reading [TransactionType.PAYMENT] before its
    first submission: the provider receives nothing, no record is created
    and none is returned. *)
Theorem processPayment_retry_scenario_sends_nothing (fuel : nat) :
  let r := run (processPayment default_env default_processor fuel
                  (JSNumber.of_Z 1000) "USD" test_card VUndefined)
             (script [TransientFailure timeout_error;
                      TransientFailure timeout_error] (Accepted "prov_1"))
             uuid_stream in
  result r = Throw (no_member "PAYMENT") /\
  returned (result r) = None /\
  record r = None /\
  map (body_field "idempotency_key") (submissions r) = [].
Proof. cbv zeta. rewrite processPayment_spec. repeat split. Qed.

(** C2 (the code does otherwise).  The declined payment of the test suite:
    the provider would answer ["failed"] with ["card_declined"].  No
    submission is made, where the claim has exactly one, and what is
    thrown is the [TypeError] of reading [TransactionType.PAYMENT], not a
    [PaymentError]. *)
Theorem processPayment_declined_scenario_sends_nothing (fuel : nat) :
  let r := run (processPayment default_env default_processor fuel
                  (JSNumber.of_Z 1000) "USD" test_card VUndefined)
             (script [] (Declined "Card declined" "card_declined"))
             uuid_stream in
  List.length (submissions r) = 0%nat /\
  exists e, result r = Throw e /\ class e = TypeError_ /\
            message e = "Cannot read properties of undefined (reading 'PAYMENT')".
Proof.
  cbv zeta. rewrite processPayment_spec. split; [reflexivity|].
  eexists. repeat split.
Qed.

(** C3 (the code does otherwise).  Every submission would fail with a
    network error, with the default configuration of three attempts.  The
    provider receives no request, where the claim has three, and the
    operation ends with the [TypeError] of reading
    [TransactionType.PAYMENT] and without a record, failed or other. *)
Theorem processPayment_exhaustion_scenario_sends_nothing (fuel : nat) :
  let r := run (processPayment default_env default_processor fuel
                  (JSNumber.of_Z 1000) "USD" test_card VUndefined)
             (script [] (TransientFailure network_error)) uuid_stream in
  retryAttempts default_processor = JSNumber.of_Z 3 /\
  List.length (submissions r) = 0%nat /\
  result r = Throw (no_member "PAYMENT") /\
  option_map status (record r) = None.
Proof. cbv zeta. rewrite processPayment_spec. repeat split. Qed.

(** C4 (as the code has it).  [processRefund] knows no refundable
    remainder and no [ValidationError]: for every original transaction and
    every requested amount it sends exactly one request, to the provider's
    refund endpoint with the 30 second timeout, whose body holds the
    transaction id and, when the amount is given and is neither zero nor
    [NaN], the amount as [Number.prototype.toString] prints it, and no
    amount otherwise; the operation never ends in a [ValidationError]. *)
Theorem processRefund_always_submits
    (env : ProcessEnv) (transactionId : string) (amt : option number)
    (prov : nat -> AxiosResult) (ids : nat -> string) :
  exists q : Request,
    submissions (run (processRefund env transactionId amt) prov ids) = [q] /\
    url q = (PAYMENT_PROVIDER_URL env ++ "/refunds")%string /\
    timeout (config q) = Some 30000 /\
    body_field "transaction_id" q = VString transactionId /\
    body_field "amount" q =
      match amt with
      | Some (S754_zero _) | Some S754_nan | None => VUndefined
      | Some x => VString (JSNumber.toString x)
      end /\
    forall e,
      result (run (processRefund env transactionId amt) prov ids) = Throw e ->
      typed e <> Some ValidationError.
Proof.
  destruct (processRefund_spec env prov ids transactionId amt) as [Hs _].
  exists (refund_request env transactionId amt).
  split; [exact Hs|]. split; [reflexivity|]. split; [reflexivity|].
  split; [reflexivity|]. split.
  - destruct amt as [[| | |]|]; reflexivity.
  - intros e He.
    destruct (processRefund_throws env prov ids transactionId amt)
      as (e' & He' & Hc).
    rewrite He in He'. injection He' as <-.
    unfold typed. rewrite Hc. discriminate.
Qed.

(** What [processRefund] does with a refund of 30 against a transaction
    of 20: one request carrying ["30"]. *)
Example refund_above_original_amount_is_submitted :
  let r := run (processRefund default_env "txn_1" (Some (JSNumber.of_Z 30)))
             (script [] (refund_response "re_1" "30" "USD")) uuid_stream in
  map (body_field "transaction_id") (submissions r) = [VString "txn_1"] /\
  map (body_field "amount") (submissions r) = [VString "30"].
Proof. vm_compute. split; reflexivity. Qed.

(** C4, the claim as stated, fails: the scenario of the design's
    section 8, a refund of 30 against a transaction of 20, is sent to the
    provider. *)
Lemma refund_guard_counterexample :
  ~ refund_guard default_env "txn_1" (JSNumber.of_Z 30) (JSNumber.of_Z 20)
      (script [] (refund_response "re_1" "30" "USD")) uuid_stream.
Proof.
  intros H. destruct (H eq_refl) as [_ Hnone].
  vm_compute in Hnone. discriminate Hnone.
Qed.

(** C5 (the code does otherwise).  The request of [processRefund] and
    that of [capturePayment] carry no idempotency key: their bodies hold
    the id of the original transaction or authorization and the amount,
    nothing else, and the id of the new record is drawn only after the
    response.  The two calls written in [processPayment] do name the
    transaction id as [idempotency_key]. *)
Theorem refund_and_capture_send_no_idempotency_key
    (env : ProcessEnv) (originalId : string) (amt : option number)
    (prov : nat -> AxiosResult) (ids : nat -> string) :
  map (body_field "idempotency_key")
      (submissions (run (processRefund env originalId amt) prov ids))
    = [VUndefined] /\
  map (body_field "idempotency_key")
      (submissions (run (capturePayment env originalId amt) prov ids))
    = [VUndefined].
Proof.
  destruct (processRefund_spec env prov ids originalId amt) as [-> _].
  destruct (capturePayment_spec env prov ids originalId amt) as [-> _].
  split; reflexivity.
Qed.


(** C7 (the code does otherwise).  Whatever the amount, 19.99 included,
    [processPayment] stores it on no record and serializes it to no
    request: no record is created or returned and nothing is sent,
    because the operation ends where it reads [TransactionType.PAYMENT]. *)
Theorem processPayment_stores_and_sends_no_amount
    (env : ProcessEnv) (this : PaymentProcessor) (fuel : nat)
    (amt : number) (cur : string) (paymentMethod meta : JSValue)
    (prov : nat -> AxiosResult) (ids : nat -> string) :
  let r := run (processPayment env this fuel amt cur paymentMethod meta)
             prov ids in
  option_map amount (returned (result r)) = None /\
  option_map amount (record r) = None /\
  map (body_field "amount") (submissions r) = [].
Proof. cbv zeta. rewrite processPayment_spec. repeat split. Qed.

(** C8 (the code does otherwise).  For every input and every provider,
    what reaches the caller of [processPayment] is a [TypeError], which is
    none of the typed errors: the error of reading
    [TransactionType.PAYMENT] is thrown outside the [try] block and
    nothing wraps it. *)
Theorem processPayment_throws_untyped_TypeError
    (env : ProcessEnv) (this : PaymentProcessor) (fuel : nat)
    (amt : number) (cur : string) (paymentMethod meta : JSValue)
    (prov : nat -> AxiosResult) (ids : nat -> string) :
  exists e,
    result (run (processPayment env this fuel amt cur paymentMethod meta)
              prov ids) = Throw e /\
    class e = TypeError_ /\
    typed e = None /\
    ~ typed_result
        (result (run (processPayment env this fuel amt cur paymentMethod meta)
                   prov ids)).
Proof.
  rewrite processPayment_spec. eexists. split; [reflexivity|].
  split; [reflexivity|]. split; [reflexivity|].
  intros H. apply H. reflexivity.
Qed.

(** C10 (the code does otherwise).  For [processRefund] and
    [capturePayment], an amount of zero ([+0] or [-0]) behaves as no
    amount: the operation runs exactly as if the argument were omitted and
    the request it sends has no [amount] field.  But no record is
    returned, with the amount of the provider's response or any other:
    both operations end in a [PaymentError], for every provider. *)
Theorem zero_amount_sends_no_amount_and_returns_no_record
    (env : ProcessEnv) (originalId : string) (neg : bool)
    (prov : nat -> AxiosResult) (ids : nat -> string) :
  JSNumber.of_Z 0 = S754_zero false /\
  (forall s, processRefund env originalId (Some (S754_zero neg)) s =
             processRefund env originalId None s) /\
  (forall s, capturePayment env originalId (Some (S754_zero neg)) s =
             capturePayment env originalId None s) /\
  map (body_field "amount")
      (submissions (run (processRefund env originalId (Some (S754_zero neg)))
                      prov ids)) = [VUndefined] /\
  map (body_field "amount")
      (submissions (run (capturePayment env originalId (Some (S754_zero neg)))
                      prov ids)) = [VUndefined] /\
  (exists e,
     result (run (processRefund env originalId (Some (S754_zero neg)))
               prov ids) = Throw e /\ class e = PaymentError_) /\
  (exists e,
     result (run (capturePayment env originalId (Some (S754_zero neg)))
               prov ids) = Throw e /\ class e = PaymentError_).
Proof.
  split; [reflexivity|]. split; [reflexivity|]. split; [reflexivity|].
  destruct (processRefund_spec env prov ids originalId (Some (S754_zero neg)))
    as [Hs _].
  destruct (capturePayment_spec env prov ids originalId (Some (S754_zero neg)))
    as [Hs' _].
  rewrite Hs, Hs'. split; [reflexivity|]. split; [reflexivity|]. split.
  - apply processRefund_throws.
  - apply capturePayment_throws.
Qed.

(** The refund of the test suite with the amount left at zero: the
    provider's answer carries the amount ["500"], and what the caller gets
    is the [PaymentError] that wraps the [TypeError] of reading
    [TransactionType.REFUND]. *)
Example zero_refund_of_the_test_suite :
  result (run (processRefund default_env "test_transaction_123"
                 (Some (JSNumber.of_Z 0)))
            (script [] (provider_response "test_refund_123" "succeeded"
                          "500" "USD"))
            uuid_stream) =
    Throw (mkError PaymentError_
             "Failed to process refund: Cannot read properties of undefined (reading 'REFUND')"
             (VString "refund_error")).
Proof. vm_compute. reflexivity. Qed.


(* ===================================================================== *)
(** * Further properties of the processor *)
(* ===================================================================== *)

(** X1. [processPayment] never reaches the provider.  For every
    configuration, input and provider it draws one identifier and throws
    the [TypeError] of reading [TransactionType.PAYMENT]; no request is
    sent and no record is created. *)
Theorem processPayment_never_reaches_the_provider
    (env : ProcessEnv) (options : PaymentProcessorOptions) (fuel : nat)
    (amt : number) (cur : string) (paymentMethod meta : JSValue)
    (prov : nat -> AxiosResult) (ids : nat -> string) :
  let r := run (processPayment env (constructor options) fuel amt cur
                  paymentMethod meta) prov ids in
  result r =
    Throw (mkError TypeError_
             "Cannot read properties of undefined (reading 'PAYMENT')"
             VUndefined) /\
  submissions r = [] /\
  record r = None /\
  drawn (snd r) = 1%nat.
Proof. cbv zeta. rewrite processPayment_spec. repeat split. Qed.

(* ===================================================================== *)
(** * Further properties of refunds and captures *)
(* ===================================================================== *)

(** X6. [processRefund] and [capturePayment] return no record for any
    response.  When the provider answers with a body that is an object,
    each has sent its one request and drawn one identifier, and throws the
    [PaymentError] that wraps the [TypeError] of reading
    [TransactionType.REFUND] or [TransactionType.CAPTURE], with the code
    ["refund_error"] or ["capture_error"]. *)
Theorem refund_and_capture_fail_on_any_response
    (env : ProcessEnv) (originalId : string) (amt : option number)
    (prov : nat -> AxiosResult) (ids : nat -> string)
    (fields : list (string * JSValue)) :
  prov 0%nat = Resolves (mkResponse (VObject fields)) ->
  result (run (processRefund env originalId amt) prov ids)
    = Throw (mkError PaymentError_
               "Failed to process refund: Cannot read properties of undefined (reading 'REFUND')"
               (VString "refund_error")) /\
  submissions (run (processRefund env originalId amt) prov ids)
    = [refund_request env originalId amt] /\
  drawn (snd (run (processRefund env originalId amt) prov ids)) = 1%nat /\
  result (run (capturePayment env originalId amt) prov ids)
    = Throw (mkError PaymentError_
               "Failed to capture payment: Cannot read properties of undefined (reading 'CAPTURE')"
               (VString "capture_error")) /\
  submissions (run (capturePayment env originalId amt) prov ids)
    = [capture_request env originalId amt] /\
  drawn (snd (run (capturePayment env originalId amt) prov ids)) = 1%nat.
Proof.
  intros Hp.
  destruct (processRefund_spec env prov ids originalId amt) as [Hs Hr].
  destruct (capturePayment_spec env prov ids originalId amt) as [Hs' Hr'].
  rewrite Hp in Hr, Hr'. rewrite first_failure_object in Hr, Hr'.
  destruct Hr as [Hr Hd], Hr' as [Hr' Hd'].
  rewrite Hr, Hr'. repeat split; assumption.
Qed.

(** The refund of the test suite: 500 against ["test_transaction_123"],
    which the provider answers with ["test_refund_123"]. *)
Lemma refund_and_capture_fail_on_any_response_witness :
  result (run (processRefund default_env "test_transaction_123"
                 (Some (JSNumber.of_Z 500)))
            (script [] (provider_response "test_refund_123" "succeeded"
                          "500" "USD"))
            uuid_stream)
    = Throw (mkError PaymentError_
               "Failed to process refund: Cannot read properties of undefined (reading 'REFUND')"
               (VString "refund_error")).
Proof.
  apply (refund_and_capture_fail_on_any_response default_env
           "test_transaction_123" (Some (JSNumber.of_Z 500))
           (script [] (provider_response "test_refund_123" "succeeded"
                         "500" "USD"))
           uuid_stream
           [("id", VString "test_refund_123"); ("status", VString "succeeded");
            ("amount", VString "500"); ("currency", VString "USD")]).
  reflexivity.
Defined.

(** X7. When the call is rejected, [processRefund] and [capturePayment]
    have sent their one request and throw a [PaymentError] whose message
    is the error's, prefixed, and whose code is the error's code, or
    ["refund_error"] / ["capture_error"] when it has none; no record id is
    drawn. *)
Theorem refund_and_capture_wrap_rejections
    (env : ProcessEnv) (originalId : string) (amt : option number)
    (prov : nat -> AxiosResult) (ids : nat -> string) (e : JSError) :
  prov 0%nat = Rejects e ->
  submissions (run (processRefund env originalId amt) prov ids)
    = [refund_request env originalId amt] /\
  result (run (processRefund env originalId amt) prov ids)
    = Throw (PaymentError (VString ("Failed to process refund: " ++ message e))
               (or (code e) (VString "refund_error"))) /\
  drawn (snd (run (processRefund env originalId amt) prov ids)) = 0%nat /\
  submissions (run (capturePayment env originalId amt) prov ids)
    = [capture_request env originalId amt] /\
  result (run (capturePayment env originalId amt) prov ids)
    = Throw (PaymentError (VString ("Failed to capture payment: " ++ message e))
               (or (code e) (VString "capture_error"))) /\
  drawn (snd (run (capturePayment env originalId amt) prov ids)) = 0%nat.
Proof.
  intros Hp.
  destruct (processRefund_spec env prov ids originalId amt) as [Hs Hr].
  destruct (capturePayment_spec env prov ids originalId amt) as [Hs' Hr'].
  rewrite Hp in Hr, Hr'. destruct Hr as [Hr Hd], Hr' as [Hr' Hd'].
  repeat split; assumption.
Qed.

(** A refund and a capture against a provider that is down. *)
Lemma refund_and_capture_wrap_rejections_witness :
  submissions (run (processRefund default_env "txn_1" None) provider_down
                 uuid_stream)
    = [refund_request default_env "txn_1" None] /\
  result (run (processRefund default_env "txn_1" None) provider_down uuid_stream)
    = Throw (PaymentError
               (VString ("Failed to process refund: " ++ message network_error))
               (or (code network_error) (VString "refund_error"))) /\
  drawn (snd (run (processRefund default_env "txn_1" None) provider_down
                uuid_stream)) = 0%nat /\
  submissions (run (capturePayment default_env "txn_1" None) provider_down
                 uuid_stream)
    = [capture_request default_env "txn_1" None] /\
  result (run (capturePayment default_env "txn_1" None) provider_down uuid_stream)
    = Throw (PaymentError
               (VString ("Failed to capture payment: " ++ message network_error))
               (or (code network_error) (VString "capture_error"))) /\
  drawn (snd (run (capturePayment default_env "txn_1" None) provider_down
                uuid_stream)) = 0%nat.
Proof.
  apply (refund_and_capture_wrap_rejections default_env "txn_1" None
           provider_down uuid_stream network_error).
  reflexivity.
Defined.

(* ===================================================================== *)
(** * The regular expression matcher *)
(* ===================================================================== *)

Module RegexFacts.
Import JSString.
Local Open Scope list_scope.

Lemma is_digit_bounds (c : N) : is_digit c = true <-> (48 <= c <= 57)%N.
Proof.
  unfold is_digit. rewrite andb_true_iff, N.leb_le, N.leb_le. tauto.
Qed.

(** A character class consumes one code unit that passes its test. *)
Lemma one_spec (f : N -> bool) (s rest : jsstring) :
  In rest (one f s) -> exists c, s = c :: rest /\ f c = true.
Proof.
  destruct s as [|c t]; cbn; [tauto|].
  destruct (f c) eqn:Hf; cbn; [|tauto].
  intros [<-|[]]. exists c. split; [reflexivity|assumption].
Qed.

Lemma in_add_widths (a b : nat) (w1 w2 : list nat) :
  In a w1 -> In b w2 -> In (a + b)%nat (add_widths w1 w2).
Proof.
  intros Ha Hb. unfold add_widths. apply in_flat_map. exists a.
  split; [assumption|]. apply in_map. assumption.
Qed.

(** Soundness of the matcher for the patterns without [+]: what it
    consumed is a prefix of the input whose length is one of the pattern's
    widths, made of digits when the pattern is. *)
Lemma rounds_consumed (r : regex) (n : nat) :
  (forall s rest, In rest (matches r s) -> consumed r s rest) ->
  forall s rest, In rest (rounds (matches r) n s) -> consumed (Times n r) s rest.
Proof.
  intros Hstep. induction n as [|n IH]; intros s rest Hin; cbn in Hin.
  - destruct Hin as [<-|[]]. exists []. cbn. auto.
  - apply in_flat_map in Hin. destruct Hin as (mid & Hmid & Hrest).
    destruct (Hstep _ _ Hmid) as (p1 & -> & Hw1 & Hd1).
    destruct (IH _ _ Hrest) as (p2 & -> & Hw2 & Hd2).
    exists (p1 ++ p2). rewrite <- app_assoc. split; [reflexivity|]. split.
    + rewrite length_app. cbn. apply in_add_widths; assumption.
    + cbn in *. intros Hd. rewrite forallb_app, Hd1, Hd2 by assumption.
      reflexivity.
Qed.

Lemma matches_consumed (r : regex) :
  plus_free r = true ->
  forall s rest, In rest (matches r s) -> consumed r s rest.
Proof.
  induction r as [c| |lo hi|cs|r1 IH1 r2 IH2|r1 IH1 r2 IH2|r IH|n r IH|r IH];
    cbn [plus_free]; intros Hpf s rest Hin; cbn [matches] in Hin.
  - apply one_spec in Hin. destruct Hin as (x & -> & Hx).
    apply N.eqb_eq in Hx. subst x. exists [c]. cbn.
    repeat split; auto. intros ->. reflexivity.
  - apply one_spec in Hin. destruct Hin as (x & -> & Hx).
    exists [x]. cbn. repeat split; auto. intros _. rewrite Hx. reflexivity.
  - apply one_spec in Hin. destruct Hin as (x & -> & Hx).
    exists [x]. cbn. repeat split; auto. intros Hd.
    apply andb_true_iff in Hd. destruct Hd as [Hlo Hhi].
    apply is_digit_bounds in Hlo, Hhi.
    apply andb_true_iff in Hx. destruct Hx as [H1 H2].
    apply N.leb_le in H1, H2.
    rewrite (proj2 (is_digit_bounds x)) by lia. reflexivity.
  - apply one_spec in Hin. destruct Hin as (x & -> & Hx).
    exists [x]. cbn. repeat split; auto. intros Hd.
    apply existsb_exists in Hx. destruct Hx as (y & Hy & Hxy).
    apply N.eqb_eq in Hxy. subst y.
    rewrite forallb_forall in Hd. rewrite (Hd _ Hy). reflexivity.
  - apply andb_true_iff in Hpf. destruct Hpf as [Hp1 Hp2].
    apply in_flat_map in Hin. destruct Hin as (mid & Hmid & Hrest).
    destruct (IH1 Hp1 _ _ Hmid) as (p1 & -> & Hw1 & Hd1).
    destruct (IH2 Hp2 _ _ Hrest) as (p2 & -> & Hw2 & Hd2).
    exists (p1 ++ p2). rewrite <- app_assoc. split; [reflexivity|]. split.
    + rewrite length_app. cbn. apply in_add_widths; assumption.
    + cbn. intros Hd. apply andb_true_iff in Hd. destruct Hd as [Ha Hb].
      rewrite forallb_app, Hd1, Hd2 by assumption. reflexivity.
  - apply andb_true_iff in Hpf. destruct Hpf as [Hp1 Hp2].
    apply in_app_or in Hin. destruct Hin as [Hin|Hin].
    + destruct (IH1 Hp1 _ _ Hin) as (p & -> & Hw & Hd).
      exists p. cbn. repeat split; [apply in_or_app; auto|].
      intros Hb. apply andb_true_iff in Hb. tauto.
    + destruct (IH2 Hp2 _ _ Hin) as (p & -> & Hw & Hd).
      exists p. cbn. repeat split; [apply in_or_app; auto|].
      intros Hb. apply andb_true_iff in Hb. tauto.
  - apply in_app_or in Hin. destruct Hin as [Hin|[<-|[]]].
    + destruct (IH Hpf _ _ Hin) as (p & -> & Hw & Hd).
      exists p. cbn. repeat split; [apply in_or_app; auto|assumption].
    + exists []. split; [reflexivity|]. split; [|reflexivity].
      cbn. apply in_or_app. cbn. auto.
  - apply rounds_consumed; [|assumption]. apply IH. assumption.
  - discriminate.
Qed.

(** A whole string a pattern accepts has one of the pattern's widths. *)
Lemma test_width (r : regex) (s : jsstring) :
  plus_free r = true -> test r s = true ->
  In (List.length s) (widths r) /\
  (digits_only r = true -> forallb is_digit s = true).
Proof.
  intros Hpf Ht. unfold test in Ht. apply existsb_exists in Ht.
  destruct Ht as (rest & Hin & Hnil). destruct rest; [|discriminate].
  destruct (matches_consumed r Hpf _ _ Hin) as (p & -> & Hw & Hd).
  rewrite app_nil_r. split; assumption.
Qed.

(** An alternative at the head of a sequence is tried branch by branch. *)
Lemma test_Seq_Alt (a b c : regex) (s : jsstring) :
  test (Seq (Alt a b) c) s = test (Seq a c) s || test (Seq b c) s.
Proof.
  unfold test. cbn [matches]. rewrite flat_map_app, existsb_app. reflexivity.
Qed.

(** A pattern that starts with a literal accepts only strings that start
    with it. *)
Lemma test_head (c : N) (r : regex) (s : jsstring) :
  test (Seq (Lit c) r) s = true -> hd_error s = Some c.
Proof.
  unfold test. cbn [matches]. destruct s as [|x t]; cbn; [discriminate|].
  destruct (N.eqb_spec c x) as [->|Hne]; cbn; [reflexivity|discriminate].
Qed.

Lemma test_head_nested (c : N) (r1 r2 : regex) (s : jsstring) :
  test (Seq (Seq (Lit c) r1) r2) s = true -> hd_error s = Some c.
Proof.
  unfold test. cbn [matches]. destruct s as [|x t]; cbn [one];
    [cbn; discriminate|].
  destruct (N.eqb_spec c x) as [->|Hne]; [reflexivity|]. cbn. discriminate.
Qed.

(** Completeness for runs of digits: [\d{n}] in front of [n] digits leaves
    exactly what follows them. *)
Lemma rounds_digits (n : nat) : forall (p rest : jsstring),
  List.length p = n -> forallb is_digit p = true ->
  rounds (matches Digit) n (p ++ rest) = [rest].
Proof.
  induction n as [|n IH]; intros [|c p] rest Hlen Hdig; try discriminate.
  - reflexivity.
  - cbn in Hdig. apply andb_true_iff in Hdig. destruct Hdig as [Hc Hp].
    cbn. rewrite Hc. cbn. rewrite IH by (cbn in Hlen; auto; lia).
    reflexivity.
Qed.

Lemma rounds_digits_all (n : nat) (p : jsstring) :
  List.length p = n -> forallb is_digit p = true ->
  rounds (matches Digit) n p = [[]].
Proof.
  intros Hlen Hdig. rewrite <- (app_nil_r p) at 1.
  apply rounds_digits; assumption.
Qed.

(** [\d+] accepts the non-empty strings of digits. *)
Lemma at_least_once_digits (fuel : nat) : forall s : jsstring,
  (List.length s <= fuel)%nat ->
  existsb is_empty (at_least_once (matches Digit) fuel s) =
    negb (is_empty s) && forallb is_digit s.
Proof.
  induction fuel as [|fuel IH]; intros [|c t] Hlen; cbn in *; try reflexivity;
    try lia.
  destruct (is_digit c); cbn; [|reflexivity].
  rewrite app_nil_r, existsb_app, IH by lia. cbn.
  destruct t; cbn; [reflexivity|]. rewrite orb_false_r. reflexivity.
Qed.

End RegexFacts.

(* ===================================================================== *)
(** * Comparing numbers that are integers *)
(* ===================================================================== *)

Module NumberOrder.
Import JSNumber NumberFacts.
Local Open Scope Z_scope.

(** The number of an integer below [2^53]: its mantissa is the integer
    shifted to 53 bits, its exponent the bit length less 53. *)
Lemma binary_round_integer_digits (s : bool) (n : positive) :
  Zpos n < 2 ^ 53 ->
  exists m : positive,
    binary_round prec emax s n 0 =
      S754_finite s m (Zpos (digits2_pos n) - 53) /\
    Zpos m = Zpos n * 2 ^ (53 - Zpos (digits2_pos n)).
Proof.
  intros Hn.
  pose proof (digits2_pos_bound n) as [Hlo Hhi].
  assert (Hd : Zpos (digits2_pos n) <= 53).
  { destruct (Z.le_gt_cases (Zpos (digits2_pos n)) 53) as [|Hgt]; [assumption|].
    exfalso.
    assert (2 ^ 53 <= 2 ^ (Zpos (digits2_pos n) - 1))
      by (apply Z.pow_le_mono_r; lia).
    lia. }
  unfold binary_round, shl_align, fexp, emin, prec, emax.
  replace (Z.max (Zpos (digits2_pos n) + 0 - 53) (3 - 1024 - 53) - 0)
    with (Zpos (digits2_pos n) - 53) by lia.
  destruct (Zpos (digits2_pos n) - 53) as [|p|p] eqn:Hdiff; try lia.
  - exists n. split.
    + apply (binary_round_aux_canonical s n 0); lia.
    + replace (53 - Zpos (digits2_pos n)) with 0 by lia.
      rewrite Z.pow_0_r. lia.
  - exists (Pos.iter xO n p). split.
    + replace (Z.max (Zpos (digits2_pos n) + 0 - 53) (3 - 1024 - 53))
        with (- Zpos p) by lia.
      apply (binary_round_aux_canonical s); [rewrite digits2_pos_iter|]; lia.
    + replace (53 - Zpos (digits2_pos n)) with (Zpos p) by lia.
      apply Zpos_iter_xO.
Qed.

Lemma digits2_pos_le_53 (n : positive) :
  Zpos n < 2 ^ 53 -> Zpos (digits2_pos n) <= 53.
Proof.
  intros Hn. pose proof (digits2_pos_bound n) as [Hlo Hhi].
  destruct (Z.le_gt_cases (Zpos (digits2_pos n)) 53) as [|Hgt]; [assumption|].
  exfalso.
  assert (2 ^ 53 <= 2 ^ (Zpos (digits2_pos n) - 1))
    by (apply Z.pow_le_mono_r; lia).
  lia.
Qed.

(** The order of two such numbers of one sign is the order of the
    integers. *)
Lemma compare_integers (p q m1 m2 : positive) :
  Zpos p < 2 ^ 53 -> Zpos q < 2 ^ 53 ->
  Zpos m1 = Zpos p * 2 ^ (53 - Zpos (digits2_pos p)) ->
  Zpos m2 = Zpos q * 2 ^ (53 - Zpos (digits2_pos q)) ->
  match Zpos (digits2_pos p) - 53 ?= Zpos (digits2_pos q) - 53 with
  | Lt => Lt
  | Gt => Gt
  | Eq => Pos.compare_cont Eq m1 m2
  end = (p ?= q)%positive.
Proof.
  intros Hp Hq Hm1 Hm2.
  pose proof (digits2_pos_bound p) as [Hplo Hphi].
  pose proof (digits2_pos_bound q) as [Hqlo Hqhi].
  pose proof (digits2_pos_le_53 p Hp) as Hpd.
  pose proof (digits2_pos_le_53 q Hq) as Hqd.
  destruct (Z.compare_spec (Zpos (digits2_pos p) - 53)
                           (Zpos (digits2_pos q) - 53)) as [Heq|Hlt|Hgt].
  - assert (Hd : Zpos (digits2_pos p) = Zpos (digits2_pos q)) by lia.
    rewrite Hd in Hm1.
    assert (Hpow : 0 < 2 ^ (53 - Zpos (digits2_pos q)))
      by (apply Z.pow_pos_nonneg; lia).
    change (Pos.compare_cont Eq m1 m2) with (Zpos m1 ?= Zpos m2).
    change (p ?= q)%positive with (Zpos p ?= Zpos q).
    rewrite Hm1, Hm2.
    generalize dependent (2 ^ (53 - Zpos (digits2_pos q))). intros k _ _ Hk.
    destruct (Z.compare_spec (Zpos p) (Zpos q));
      destruct (Z.compare_spec (Zpos p * k) (Zpos q * k));
      try reflexivity; nia.
  - symmetry. apply Pos.compare_lt_iff.
    assert (2 ^ Zpos (digits2_pos p) <= 2 ^ (Zpos (digits2_pos q) - 1))
      by (apply Z.pow_le_mono_r; lia).
    lia.
  - symmetry. apply Pos.compare_gt_iff.
    assert (2 ^ Zpos (digits2_pos q) <= 2 ^ (Zpos (digits2_pos p) - 1))
      by (apply Z.pow_le_mono_r; lia).
    lia.
Qed.

(** Comparing the numbers of two integers of magnitude below [2^53]
    compares the integers. *)
Lemma SFcompare_of_Z (a b : Z) :
  - 2 ^ 53 < a < 2 ^ 53 -> - 2 ^ 53 < b < 2 ^ 53 ->
  SFcompare (of_Z a) (of_Z b) = Some (a ?= b).
Proof.
  intros Ha Hb. unfold of_Z, binary_normalize.
  destruct a as [|p|p], b as [|q|q]; try reflexivity.
  - destruct (binary_round_integer_digits false q) as (m & -> & _); [lia|].
    reflexivity.
  - destruct (binary_round_integer_digits true q) as (m & -> & _); [lia|].
    reflexivity.
  - destruct (binary_round_integer_digits false p) as (m & -> & _); [lia|].
    reflexivity.
  - destruct (binary_round_integer_digits false p) as (m1 & -> & H1); [lia|].
    destruct (binary_round_integer_digits false q) as (m2 & -> & H2); [lia|].
    cbn [SFcompare]. f_equal.
    rewrite (compare_integers p q m1 m2) by (assumption || lia).
    reflexivity.
  - destruct (binary_round_integer_digits false p) as (m1 & -> & H1); [lia|].
    destruct (binary_round_integer_digits true q) as (m2 & -> & H2); [lia|].
    reflexivity.
  - destruct (binary_round_integer_digits true p) as (m & -> & _); [lia|].
    reflexivity.
  - destruct (binary_round_integer_digits true p) as (m1 & -> & H1); [lia|].
    destruct (binary_round_integer_digits false q) as (m2 & -> & H2); [lia|].
    reflexivity.
  - destruct (binary_round_integer_digits true p) as (m1 & -> & H1); [lia|].
    destruct (binary_round_integer_digits true q) as (m2 & -> & H2); [lia|].
    cbn [SFcompare]. f_equal.
    pose proof (compare_integers p q m1 m2) as Hc.
    change (Z.neg p ?= Z.neg q) with (CompOpp (p ?= q)%positive).
    rewrite <- Hc by (assumption || lia).
    destruct (Zpos (digits2_pos p) - 53 ?= Zpos (digits2_pos q) - 53);
      reflexivity.
Qed.

Lemma SFltb_of_Z (a b : Z) :
  - 2 ^ 53 < a < 2 ^ 53 -> - 2 ^ 53 < b < 2 ^ 53 ->
  SFltb (of_Z a) (of_Z b) = (a <? b).
Proof.
  intros Ha Hb. unfold SFltb, Z.ltb. rewrite SFcompare_of_Z by assumption.
  reflexivity.
Qed.

Lemma SFeqb_of_Z (a b : Z) :
  - 2 ^ 53 < a < 2 ^ 53 -> - 2 ^ 53 < b < 2 ^ 53 ->
  SFeqb (of_Z a) (of_Z b) = (a =? b).
Proof.
  intros Ha Hb. unfold SFeqb, Z.eqb. rewrite SFcompare_of_Z by assumption.
  destruct a, b; try reflexivity; cbn [Z.compare];
    unfold Pos.eqb; fold Pos.eqb.
  - destruct (Pos.compare_spec p p0) as [->|H|H].
    + rewrite Pos.eqb_refl. reflexivity.
    + symmetry. apply Pos.eqb_neq. lia.
    + symmetry. apply Pos.eqb_neq. lia.
  - destruct (Pos.compare_spec p p0) as [->|H|H]; cbn [CompOpp].
    + rewrite Pos.eqb_refl. reflexivity.
    + symmetry. apply Pos.eqb_neq. lia.
    + symmetry. apply Pos.eqb_neq. lia.
Qed.

(** Of the integers, only [0] is falsy. *)
Lemma truthy_of_Z (a : Z) :
  - 2 ^ 53 < a < 2 ^ 53 -> truthy (of_Z a) = negb (a =? 0).
Proof.
  intros Ha. unfold of_Z, binary_normalize. destruct a as [|p|p].
  - reflexivity.
  - destruct (binary_round_integer_digits false p) as (m & -> & _); [lia|].
    reflexivity.
  - destruct (binary_round_integer_digits true p) as (m & -> & _); [lia|].
    reflexivity.
Qed.

End NumberOrder.

(* ===================================================================== *)
(** * The card validator: detection, formatting and masking *)
(* ===================================================================== *)

Module ValidatorFacts.
Import JSString CreditCardValidator RegexFacts.
Local Open Scope list_scope.

Lemma remove_spaces_idempotent (s : jsstring) :
  remove_spaces (remove_spaces s) = remove_spaces s.
Proof.
  unfold remove_spaces. induction s as [|c t IH]; cbn; [reflexivity|].
  destruct (is_space c) eqn:Hc; cbn; [assumption|].
  rewrite Hc. cbn. rewrite IH. reflexivity.
Qed.

Lemma remove_spaces_clean (s : jsstring) :
  forallb (fun c => negb (is_space c)) s = true -> remove_spaces s = s.
Proof.
  unfold remove_spaces. induction s as [|c t IH]; cbn; [reflexivity|].
  intros H. apply andb_true_iff in H. destruct H as [Hc Ht].
  rewrite Hc, IH by assumption. reflexivity.
Qed.

Lemma remove_spaces_no_space (s : jsstring) :
  forallb (fun c => negb (is_space c)) (remove_spaces s) = true.
Proof.
  unfold remove_spaces. induction s as [|c t IH]; cbn; [reflexivity|].
  destruct (is_space c) eqn:Hc; cbn; [assumption|].
  rewrite Hc. cbn. assumption.
Qed.

(** What each pattern accepts: its length, its first character, digits. *)
Lemma visa_accepts (s : jsstring) :
  test visa_pattern s = true ->
  forallb is_digit s = true /\
  (List.length s = 13 \/ List.length s = 16)%nat /\
  hd_error s = Some (chr "4").
Proof.
  intros Ht. pose proof (test_head _ _ _ Ht) as Hh.
  destruct (test_width visa_pattern s eq_refl Ht) as [Hw Hd].
  split; [apply Hd; reflexivity|]. split; [|exact Hh].
  cbn in Hw. intuition lia.
Qed.

Lemma amex_accepts (s : jsstring) :
  test amex_pattern s = true ->
  forallb is_digit s = true /\ List.length s = 15%nat /\
  hd_error s = Some (chr "3").
Proof.
  intros Ht. pose proof (test_head _ _ _ Ht) as Hh.
  destruct (test_width amex_pattern s eq_refl Ht) as [Hw Hd].
  split; [apply Hd; reflexivity|]. split; [|exact Hh].
  cbn in Hw. intuition lia.
Qed.

Lemma discover_accepts (s : jsstring) :
  test discover_pattern s = true ->
  forallb is_digit s = true /\ List.length s = 16%nat /\
  hd_error s = Some (chr "6").
Proof.
  intros Ht. pose proof (test_head _ _ _ Ht) as Hh.
  destruct (test_width discover_pattern s eq_refl Ht) as [Hw Hd].
  split; [apply Hd; reflexivity|]. split; [|exact Hh].
  cbn in Hw. intuition lia.
Qed.

Lemma mastercard_accepts (s : jsstring) :
  test mastercard_pattern s = true ->
  forallb is_digit s = true /\
  ((List.length s = 16%nat /\ hd_error s = Some (chr "5")) \/
   (List.length s = 14%nat /\ hd_error s = Some (chr "2"))).
Proof.
  intros Ht.
  destruct (test_width mastercard_pattern s eq_refl Ht) as [_ Hd].
  split; [apply Hd; reflexivity|].
  unfold mastercard_pattern in Ht. rewrite test_Seq_Alt in Ht.
  apply orb_true_iff in Ht. destruct Ht as [Ht|Ht].
  - left. split.
    + pose proof Ht as Hw. apply test_width in Hw; [|reflexivity].
      destruct Hw as [Hw _]. cbn in Hw. intuition lia.
    + exact (test_head_nested _ _ _ _ Ht).
  - right. split.
    + pose proof Ht as Hw. apply test_width in Hw; [|reflexivity].
      destruct Hw as [Hw _]. cbn in Hw. intuition lia.
    + exact (test_head_nested _ _ _ _ Ht).
Qed.

(** The cascade of [detectCardType], pattern by pattern. *)
Lemma detectCardType_cases (cardNumber : jsstring) :
  let clean := remove_spaces cardNumber in
  match detectCardType cardNumber with
  | VISA => test visa_pattern clean = true
  | MASTERCARD => test mastercard_pattern clean = true
  | AMEX => test amex_pattern clean = true
  | DISCOVER => test discover_pattern clean = true
  | UNKNOWN =>
      test visa_pattern clean = false /\
      test mastercard_pattern clean = false /\
      test amex_pattern clean = false /\
      test discover_pattern clean = false
  end.
Proof.
  unfold detectCardType.
  destruct (test visa_pattern _) eqn:Hv; [reflexivity|].
  destruct (test mastercard_pattern _) eqn:Hm; [reflexivity|].
  destruct (test amex_pattern _) eqn:Ha; [reflexivity|].
  destruct (test discover_pattern _) eqn:Hd; [reflexivity|].
  cbn. auto.
Qed.

Lemma forallb_firstn {A} (f : A -> bool) (n : nat) (l : list A) :
  forallb f l = true -> forallb f (firstn n l) = true.
Proof.
  revert l. induction n as [|n IH]; intros [|x l] H; cbn in *; auto.
  apply andb_true_iff in H. destruct H as [-> H]. cbn. auto.
Qed.

Lemma forallb_skipn {A} (f : A -> bool) (n : nat) (l : list A) :
  forallb f l = true -> forallb f (skipn n l) = true.
Proof.
  revert l. induction n as [|n IH]; intros [|x l] H; cbn in *; auto.
  apply andb_true_iff in H. destruct H as [_ H]. auto.
Qed.

(** [\d{n}] in front of at least [n] digits takes the first [n]. *)
Lemma matches_Times_digits (n : nat) (s : jsstring) :
  forallb is_digit s = true -> (n <= List.length s)%nat ->
  matches (Times n Digit) s = [skipn n s].
Proof.
  intros Hdig Hlen. cbn [matches].
  rewrite <- (firstn_skipn n s) at 1.
  apply rounds_digits.
  - rewrite length_firstn. lia.
  - apply forallb_firstn. assumption.
Qed.

(** [\d{n}] at the end of the pattern, in front of exactly [n] digits. *)
Lemma test_Times_digits (n : nat) (s : jsstring) :
  forallb is_digit s = true -> List.length s = n ->
  test (Times n Digit) s = true.
Proof.
  intros Hdig Hlen. unfold test.
  rewrite matches_Times_digits by (auto; lia).
  rewrite skipn_all2 by lia. reflexivity.
Qed.

Lemma test_Seq_Lit (c : N) (r : regex) (s : jsstring) :
  test (Seq (Lit c) r) (c :: s) = test r s.
Proof.
  unfold test. cbn [matches one]. rewrite N.eqb_refl. cbn [flat_map].
  rewrite app_nil_r. reflexivity.
Qed.

Lemma test_Seq_Lit_other (c x : N) (r : regex) (s : jsstring) :
  c <> x -> test (Seq (Lit c) r) (x :: s) = false.
Proof.
  intros Hne. unfold test. cbn [matches one].
  destruct (N.eqb_spec c x); [contradiction|]. reflexivity.
Qed.

Lemma test_Seq_Seq (a b c : regex) (s : jsstring) :
  test (Seq (Seq a b) c) s = test (Seq a (Seq b c)) s.
Proof.
  unfold test. cbn [matches]. f_equal.
  induction (matches a s) as [|x l IH]; cbn [flat_map]; [reflexivity|].
  rewrite flat_map_app, IH. reflexivity.
Qed.

Lemma test_Seq_Range (lo hi x : N) (r : regex) (s : jsstring) :
  (lo <= x <= hi)%N -> test (Seq (Range lo hi) r) (x :: s) = test r s.
Proof.
  intros [Hlo Hhi]. unfold test. cbn [matches one].
  apply N.leb_le in Hlo, Hhi. rewrite Hlo, Hhi. cbn [andb flat_map].
  rewrite app_nil_r. reflexivity.
Qed.

Lemma test_Seq_Times_digits (n : nat) (r : regex) (s : jsstring) :
  forallb is_digit s = true -> (n <= List.length s)%nat ->
  test (Seq (Times n Digit) r) s = test r (skipn n s).
Proof.
  intros Hdig Hlen. unfold test.
  replace (matches (Seq (Times n Digit) r) s)
    with (flat_map (matches r) (matches (Times n Digit) s)) by reflexivity.
  rewrite matches_Times_digits by assumption. cbn [flat_map].
  rewrite app_nil_r. reflexivity.
Qed.

Lemma test_Seq_Digit (x : N) (r : regex) (s : jsstring) :
  is_digit x = true -> test (Seq Digit r) (x :: s) = test r s.
Proof.
  intros Hx. unfold test. cbn [matches one]. rewrite Hx. cbn [flat_map].
  rewrite app_nil_r. reflexivity.
Qed.

Lemma test_Seq_OneOf (cs : list N) (x : N) (r : regex) (s : jsstring) :
  In x cs -> test (Seq (OneOf cs) r) (x :: s) = test r s.
Proof.
  intros Hx. unfold test. cbn [matches one].
  replace (existsb (N.eqb x) cs) with true.
  - cbn [flat_map]. rewrite app_nil_r. reflexivity.
  - symmetry. apply existsb_exists. exists x. split; [assumption|].
    apply N.eqb_refl.
Qed.

Ltac chr_values :=
  repeat match goal with
  | |- context [chr ?a] =>
      let v := eval cbv in (chr a) in change (chr a) with v
  | H : context [chr ?a] |- _ =>
      let v := eval cbv in (chr a) in change (chr a) with v in H
  end.

Ltac split_digits H :=
  cbn [forallb] in H; repeat rewrite andb_true_iff in H.

(** ** Card types *)

(** X8. Whatever [detectCardType] recognises is a string of digits (white
    space apart) with the length and the first digit of its network: Visa
    13 or 16 digits from 4, Mastercard 16 digits from 5 or 14 digits from
    2, American Express 15 digits from 3, Discover 16 digits from 6. *)
Theorem detectCardType_shape (cardNumber : jsstring) :
  let clean := remove_spaces cardNumber in
  match detectCardType cardNumber with
  | VISA =>
      forallb is_digit clean = true /\
      (List.length clean = 13 \/ List.length clean = 16)%nat /\
      hd_error clean = Some (chr "4")
  | MASTERCARD =>
      forallb is_digit clean = true /\
      ((List.length clean = 16%nat /\ hd_error clean = Some (chr "5")) \/
       (List.length clean = 14%nat /\ hd_error clean = Some (chr "2")))
  | AMEX =>
      forallb is_digit clean = true /\ List.length clean = 15%nat /\
      hd_error clean = Some (chr "3")
  | DISCOVER =>
      forallb is_digit clean = true /\ List.length clean = 16%nat /\
      hd_error clean = Some (chr "6")
  | UNKNOWN => True
  end.
Proof.
  intros clean. pose proof (detectCardType_cases cardNumber) as H.
  cbv zeta in H. fold clean in H.
  destruct (detectCardType cardNumber).
  - apply visa_accepts, H.
  - apply mastercard_accepts, H.
  - apply amex_accepts, H.
  - apply discover_accepts, H.
  - exact I.
Qed.

(** X9. A sixteen-digit number of Mastercard's 2-series (first digit 2) is
    not recognised: the pattern's second branch is followed by ten digits
    only, so [detectCardType] answers [UNKNOWN] for every number of sixteen
    code units that starts with 2. *)
Theorem detectCardType_sixteen_from_two_unknown
    (cardNumber rest : jsstring) :
  remove_spaces cardNumber = chr "2" :: rest ->
  List.length rest = 15%nat ->
  detectCardType cardNumber = UNKNOWN.
Proof.
  intros Hclean Hlen.
  pose proof (detectCardType_cases cardNumber) as H. cbv zeta in H.
  destruct (detectCardType cardNumber); [| | | |reflexivity]; exfalso.
  - apply visa_accepts in H. rewrite Hclean in H. cbn in H.
    destruct H as (_ & _ & H). discriminate.
  - apply mastercard_accepts in H. rewrite Hclean in H. cbn in H.
    destruct H as (_ & [[_ H]|[H _]]); [discriminate|lia].
  - apply amex_accepts in H. rewrite Hclean in H. cbn in H.
    destruct H as (_ & _ & H). discriminate.
  - apply discover_accepts in H. rewrite Hclean in H. cbn in H.
    destruct H as (_ & _ & H). discriminate.
Qed.

Lemma detectCardType_sixteen_from_two_unknown_witness :
  detectCardType (of_string "2221 0000 0000 0009") = UNKNOWN.
Proof.
  apply (detectCardType_sixteen_from_two_unknown
           (of_string "2221 0000 0000 0009") (of_string "221000000000009"));
    reflexivity.
Defined.

(** X10. The 2-series is recognised at fourteen digits: a number whose
    first four digits lie between 2221 and 2720 and which has ten more
    digits is a [MASTERCARD]. *)
Theorem detectCardType_two_series_fourteen
    (cardNumber body : jsstring) (b c e : N) :
  remove_spaces cardNumber = chr "2" :: b :: c :: e :: body ->
  forallb is_digit (b :: c :: e :: body) = true ->
  (221 <= 100 * (b - 48) + 10 * (c - 48) + (e - 48) <= 720)%N ->
  List.length body = 10%nat ->
  detectCardType cardNumber = MASTERCARD.
Proof.
  intros Hclean Hdig Hrange Hlen.
  unfold detectCardType. rewrite Hclean.
  unfold visa_pattern, d at 1.
  rewrite test_Seq_Lit_other by (cbv; discriminate).
  assert (Hall := Hdig). split_digits Hdig.
  destruct Hdig as (Hb & Hc & He & Hbody).
  assert (Htail : test (Times 10 Digit) body = true)
    by (apply test_Times_digits; assumption).
  apply is_digit_bounds in Hb, Hc, He.
  replace (test mastercard_pattern _) with true; [reflexivity|]. symmetry.
  unfold mastercard_pattern, d, range.
  rewrite test_Seq_Alt. apply orb_true_iff. right.
  rewrite test_Seq_Seq, test_Seq_Lit, test_Seq_Alt. apply orb_true_iff.
  destruct (N.eq_dec b (chr "2")) as [->|Hb2].
  - left. rewrite test_Seq_Seq, test_Seq_Lit, test_Seq_Alt.
    apply orb_true_iff.
    destruct (N.eq_dec c (chr "2")) as [->|Hc2].
    + left. rewrite test_Seq_Seq, test_Seq_Lit.
      rewrite test_Seq_Range by (chr_values; lia). exact Htail.
    + right. rewrite test_Seq_Seq.
      rewrite test_Seq_Range by (chr_values; lia).
      rewrite test_Seq_Digit by (apply is_digit_bounds; lia). exact Htail.
  - right. rewrite test_Seq_Alt. apply orb_true_iff.
    destruct (N.eq_dec b (chr "7")) as [->|Hb7].
    + right. rewrite test_Seq_Seq, test_Seq_Lit, test_Seq_Alt.
      apply orb_true_iff.
      destruct (N.eq_dec c (chr "2")) as [->|Hc2].
      * right. assert (e = chr "0") as -> by (chr_values; lia).
        rewrite test_Seq_Seq, test_Seq_Lit, test_Seq_Lit. exact Htail.
      * left. rewrite test_Seq_Seq.
        rewrite test_Seq_Range by (chr_values; lia).
        rewrite test_Seq_Digit by (apply is_digit_bounds; lia). exact Htail.
    + left. rewrite test_Seq_Seq.
      rewrite test_Seq_Range by (chr_values; lia).
      rewrite test_Seq_Times_digits.
      * exact Htail.
      * cbn [forallb].
        rewrite Hbody, (proj2 (is_digit_bounds c) Hc),
          (proj2 (is_digit_bounds e) He). reflexivity.
      * cbn. lia.
Qed.

Lemma detectCardType_two_series_fourteen_witness :
  detectCardType (of_string "2221 0000 0000 09") = MASTERCARD.
Proof.
  apply (detectCardType_two_series_fourteen
           (of_string "2221 0000 0000 09") (of_string "0000000009")
           (chr "2") (chr "2") (chr "1"));
    [reflexivity | reflexivity | chr_values; lia | reflexivity].
Defined.

(** X11. The numbers of the four networks are recognised: after removing
    white space, 4 and twelve or fifteen digits is a Visa; 5, a digit from
    1 to 5 and fourteen digits a Mastercard; 34 or 37 and thirteen digits
    an American Express; 6011 and twelve digits, or 65 and fourteen digits,
    a Discover. *)
Theorem detectCardType_recognises (cardNumber body : jsstring) :
  forallb is_digit body = true ->
  (remove_spaces cardNumber = chr "4" :: body ->
   (List.length body = 12 \/ List.length body = 15)%nat ->
   detectCardType cardNumber = VISA) /\
  (forall c, remove_spaces cardNumber = chr "5" :: c :: body ->
   (chr "1" <= c <= chr "5")%N -> List.length body = 14%nat ->
   detectCardType cardNumber = MASTERCARD) /\
  (forall c, remove_spaces cardNumber = chr "3" :: c :: body ->
   c = chr "4" \/ c = chr "7" -> List.length body = 13%nat ->
   detectCardType cardNumber = AMEX) /\
  (remove_spaces cardNumber = of_string "6011" ++ body ->
   List.length body = 12%nat ->
   detectCardType cardNumber = DISCOVER) /\
  (remove_spaces cardNumber = of_string "65" ++ body ->
   List.length body = 14%nat ->
   detectCardType cardNumber = DISCOVER).
Proof.
  intros Hdig. unfold detectCardType. repeat split.
  - intros -> Hlen. unfold visa_pattern, d. rewrite test_Seq_Lit.
    rewrite test_Seq_Times_digits by (auto; lia).
    replace (test (Opt (Times 3 Digit)) (skipn 12 body)) with true;
      [reflexivity|].
    symmetry. unfold test. cbn [matches]. rewrite existsb_app.
    destruct Hlen as [Hlen|Hlen].
    + rewrite skipn_all2 by lia. reflexivity.
    + fold (matches (Times 3 Digit) (skipn 12 body)).
      change (existsb is_empty (matches (Times 3 Digit) (skipn 12 body)))
        with (test (Times 3 Digit) (skipn 12 body)).
      rewrite test_Times_digits; [reflexivity| |].
      * apply forallb_skipn. assumption.
      * rewrite length_skipn. lia.
  - intros c -> Hc Hlen. unfold visa_pattern, d at 1.
    rewrite test_Seq_Lit_other by (cbv; discriminate).
    unfold mastercard_pattern, d, range.
    rewrite test_Seq_Alt, test_Seq_Seq, test_Seq_Lit, test_Seq_Seq.
    rewrite test_Seq_Range by exact Hc.
    rewrite test_Seq_Times_digits by (auto; lia).
    rewrite test_Times_digits; [reflexivity| |].
    + apply forallb_skipn. assumption.
    + rewrite length_skipn. lia.
  - intros c -> Hc Hlen. unfold visa_pattern, d at 1.
    rewrite test_Seq_Lit_other by (cbv; discriminate).
    replace (test mastercard_pattern _) with false.
    + unfold amex_pattern, d. rewrite test_Seq_Lit.
      rewrite test_Seq_OneOf by (cbn [In]; destruct Hc; auto).
      rewrite test_Times_digits by assumption. reflexivity.
    + symmetry. apply not_true_is_false. intros Hm.
      apply mastercard_accepts in Hm. cbn in Hm.
      destruct Hm as (_ & [[_ H]|[_ H]]); discriminate.
  - intros -> Hlen. cbn [of_string list_ascii_of_string map app].
    fold (chr "6") (chr "0") (chr "1").
    unfold visa_pattern, d at 1.
    rewrite test_Seq_Lit_other by (cbv; discriminate).
    replace (test mastercard_pattern _) with false.
    + unfold amex_pattern, d at 1.
      rewrite test_Seq_Lit_other by (cbv; discriminate).
      unfold discover_pattern, d.
      rewrite test_Seq_Lit, test_Seq_Alt.
      repeat (rewrite test_Seq_Seq || rewrite test_Seq_Lit).
      rewrite test_Times_digits by assumption. reflexivity.
    + symmetry. apply not_true_is_false. intros Hm.
      apply mastercard_accepts in Hm. cbn in Hm.
      destruct Hm as (_ & [[_ H]|[_ H]]); discriminate.
  - intros -> Hlen. cbn [of_string list_ascii_of_string map app].
    fold (chr "6") (chr "5").
    unfold visa_pattern, d at 1.
    rewrite test_Seq_Lit_other by (cbv; discriminate).
    replace (test mastercard_pattern _) with false.
    + unfold amex_pattern, d at 1.
      rewrite test_Seq_Lit_other by (cbv; discriminate).
      unfold discover_pattern, d.
      rewrite test_Seq_Lit, test_Seq_Alt.
      rewrite test_Seq_Seq, test_Seq_Lit_other by (cbv; discriminate).
      rewrite test_Seq_Seq, test_Seq_Lit.
      rewrite test_Seq_Times_digits by (auto; lia).
      rewrite test_Times_digits; [reflexivity| |].
      * apply forallb_skipn. assumption.
      * rewrite length_skipn. lia.
    + symmetry. apply not_true_is_false. intros Hm.
      apply mastercard_accepts in Hm. cbn in Hm.
      destruct Hm as (_ & [[_ H]|[_ H]]); discriminate.
Qed.

Lemma detectCardType_recognises_witness :
  detectCardType (of_string "4242 4242 4242 4242") = VISA.
Proof.
  apply (proj1 (detectCardType_recognises
                  (of_string "4242 4242 4242 4242")
                  (of_string "242424242424242") eq_refl));
    [reflexivity | right; reflexivity].
Defined.

(** X12. [isNumeric] looks at what is left once white space is removed:
    it holds exactly when that is one digit or more. *)
Theorem isNumeric_iff (value : jsstring) :
  isNumeric value = true <->
  remove_spaces value <> [] /\ forallb is_digit (remove_spaces value) = true.
Proof.
  unfold isNumeric, test. cbn [matches].
  rewrite at_least_once_digits by lia.
  rewrite andb_true_iff.
  destruct (remove_spaces value); cbn [is_empty negb]; split;
    intros [H1 H2]; split; congruence.
Qed.

(** ** Masking *)

Lemma stars_no_space (n : nat) :
  forallb (fun c => negb (is_space c)) (repeat (chr "*") n) = true.
Proof. induction n as [|n IH]; cbn; [reflexivity|exact IH]. Qed.

Lemma forallb_app_true {A} (f : A -> bool) (l1 l2 : list A) :
  forallb f l1 = true -> forallb f l2 = true -> forallb f (l1 ++ l2) = true.
Proof. intros H1 H2. rewrite forallb_app, H1, H2. reflexivity. Qed.

(** What [maskCardNumber] builds when the number has four code units or
    more besides white space. *)
Lemma maskCardNumber_long (cardNumber : jsstring) :
  let clean := remove_spaces cardNumber in
  (4 <= List.length clean)%nat ->
  maskCardNumber cardNumber =
    Masked_as (repeat (chr "*") (List.length clean - 4) ++
               skipn (List.length clean - 4) clean).
Proof.
  intros clean Hlen. unfold maskCardNumber, stars, slice_last. fold clean.
  destruct (Z.ltb_spec (Z.of_nat (List.length clean) - 4) 0) as [Hneg|_];
    [lia|].
  replace (Z.to_nat (Z.of_nat (List.length clean) - 4))
    with (List.length clean - 4)%nat by lia.
  reflexivity.
Qed.

Lemma maskCardNumber_short (cardNumber : jsstring) :
  (List.length (remove_spaces cardNumber) < 4)%nat ->
  maskCardNumber cardNumber = Throws_RangeError.
Proof.
  intros Hlen. unfold maskCardNumber, stars.
  destruct (Z.ltb_spec (Z.of_nat (List.length (remove_spaces cardNumber)) - 4) 0);
    [reflexivity|lia].
Qed.

(** X13. [maskCardNumber] throws the [RangeError] of ['*'.repeat] exactly
    when fewer than four code units are left once white space is removed;
    otherwise its result is as long as the cleaned number, shows ['*'] at
    every position before the last four and the cleaned number's own code
    units at the last four. *)
Theorem maskCardNumber_spec (cardNumber : jsstring) :
  let clean := remove_spaces cardNumber in
  match maskCardNumber cardNumber with
  | Throws_RangeError => (List.length clean < 4)%nat
  | Masked_as masked =>
      (4 <= List.length clean)%nat /\
      List.length masked = List.length clean /\
      (forall i, (i < List.length clean - 4)%nat ->
                 nth_error masked i = Some (chr "*")) /\
      (forall i, (List.length clean - 4 <= i)%nat ->
                 nth_error masked i = nth_error clean i)
  end.
Proof.
  intros clean.
  destruct (Nat.lt_ge_cases (List.length clean) 4) as [Hshort|Hlong].
  - rewrite maskCardNumber_short by exact Hshort. exact Hshort.
  - rewrite maskCardNumber_long by exact Hlong. fold clean.
    set (n := (List.length clean - 4)%nat).
    assert (Hn : (n <= List.length clean)%nat) by (unfold n; lia).
    split; [exact Hlong|]. split; [|split].
    + rewrite length_app, repeat_length, length_skipn. lia.
    + intros i Hi. rewrite nth_error_app1 by (rewrite repeat_length; lia).
      apply nth_error_repeat. exact Hi.
    + intros i Hi. rewrite nth_error_app2 by (rewrite repeat_length; lia).
      rewrite repeat_length, nth_error_skipn. f_equal. lia.
Qed.

(** X14. Masking what is masked changes nothing. *)
Theorem maskCardNumber_idempotent (cardNumber masked : jsstring) :
  maskCardNumber cardNumber = Masked_as masked ->
  maskCardNumber masked = Masked_as masked.
Proof.
  intros Hm.
  destruct (Nat.lt_ge_cases (List.length (remove_spaces cardNumber)) 4)
    as [Hshort|Hlong].
  { rewrite maskCardNumber_short in Hm by exact Hshort. discriminate. }
  rewrite maskCardNumber_long in Hm by exact Hlong.
  injection Hm as Hm.
  set (clean := remove_spaces cardNumber) in *.
  set (n := (List.length clean - 4)%nat) in *.
  assert (Hclean : remove_spaces masked = masked).
  { apply remove_spaces_clean. rewrite <- Hm. apply forallb_app_true.
    - apply stars_no_space.
    - apply forallb_skipn. apply remove_spaces_no_space. }
  assert (Hlen : List.length masked = (n + 4)%nat).
  { rewrite <- Hm, length_app, repeat_length, length_skipn.
    unfold n. lia. }
  rewrite maskCardNumber_long by (rewrite Hclean; lia).
  rewrite Hclean, Hlen. replace (n + 4 - 4)%nat with n by lia.
  f_equal. rewrite <- Hm at 1.
  rewrite skipn_app, repeat_length, Nat.sub_diag, skipn_all2
    by (rewrite repeat_length; lia).
  cbn [skipn app]. exact Hm.
Qed.

Lemma maskCardNumber_idempotent_witness :
  maskCardNumber (of_string "************4242") =
    Masked_as (of_string "************4242").
Proof.
  apply (maskCardNumber_idempotent (of_string "4242 4242 4242 4242")).
  reflexivity.
Defined.

(** ** Formatting *)

Lemma detectCardType_remove_spaces (cardNumber : jsstring) :
  detectCardType (remove_spaces cardNumber) = detectCardType cardNumber.
Proof.
  unfold detectCardType. rewrite remove_spaces_idempotent. reflexivity.
Qed.

Lemma digit_no_line_terminator (c : N) :
  is_digit c = true -> is_line_terminator c = false.
Proof.
  intros H. apply is_digit_bounds in H. unfold is_line_terminator.
  repeat match goal with
  | |- context [(c =? ?k)%N] => destruct (N.eqb_spec c k); [lia|]
  end.
  reflexivity.
Qed.

Lemma space_after_4_digits_eq (a b c e f : N) (rest : jsstring) :
  space_after_4_digits (a :: b :: c :: e :: f :: rest) =
    if is_digit a && is_digit b && is_digit c && is_digit e &&
       negb (is_line_terminator f)
    then a :: b :: c :: e :: chr " " :: space_after_4_digits (f :: rest)
    else a :: space_after_4_digits (b :: c :: e :: f :: rest).
Proof. reflexivity. Qed.

(** One step of the global replacement, at four digits that a digit
    follows. *)
Lemma space_after_4_digits_step (a b c e f : N) (rest : jsstring) :
  forallb is_digit [a; b; c; e; f] = true ->
  space_after_4_digits (a :: b :: c :: e :: f :: rest) =
    a :: b :: c :: e :: chr " " :: space_after_4_digits (f :: rest).
Proof.
  intros H. split_digits H. destruct H as (Ha & Hb & Hc & He & Hf & _).
  rewrite space_after_4_digits_eq.
  rewrite Ha, Hb, Hc, He, (digit_no_line_terminator f Hf). reflexivity.
Qed.

(** The global replacement only adds spaces. *)
Lemma space_after_4_digits_spaces (n : nat) : forall s : jsstring,
  (List.length s <= n)%nat ->
  remove_spaces (space_after_4_digits s) = remove_spaces s.
Proof.
  induction n as [|n IH]; intros s Hlen.
  - destruct s; [reflexivity|cbn in Hlen; lia].
  - destruct s as [|a t]; [reflexivity|].
    assert (Hdefault :
      remove_spaces (a :: space_after_4_digits t) = remove_spaces (a :: t)).
    { unfold remove_spaces in *. cbn [filter].
      rewrite IH by (cbn in Hlen; lia). reflexivity. }
    destruct t as [|b [|c [|e [|f rest]]]]; try exact Hdefault.
    rewrite space_after_4_digits_eq.
    destruct (is_digit a && is_digit b && is_digit c && is_digit e &&
              negb (is_line_terminator f)) eqn:Hfour.
    + unfold remove_spaces in *.
      change (a :: b :: c :: e :: chr " " :: space_after_4_digits (f :: rest))
        with ([a; b; c; e] ++ [chr " "] ++ space_after_4_digits (f :: rest)).
      change (a :: b :: c :: e :: f :: rest) with ([a; b; c; e] ++ f :: rest).
      rewrite !filter_app.
      rewrite IH by (cbn in Hlen |- *; lia). reflexivity.
    + exact Hdefault.
Qed.

Lemma split_4_6_5 {A} (s : list A) :
  firstn 4 s ++ firstn 6 (skipn 4 s) ++ skipn 10 s = s.
Proof.
  change 10%nat with (6 + 4)%nat. rewrite <- skipn_skipn.
  rewrite (firstn_skipn 6 (skipn 4 s)). apply firstn_skipn.
Qed.

Lemma group_4_6_5_spaces (s : jsstring) :
  remove_spaces (group_4_6_5 s) = remove_spaces s.
Proof.
  unfold group_4_6_5. destruct (test _ s); [|reflexivity].
  unfold remove_spaces. rewrite !filter_app.
  change (filter (fun c => negb (is_space c)) [chr " "]) with (@nil N).
  cbn [app]. rewrite <- !filter_app. f_equal.
  apply split_4_6_5.
Qed.

Lemma formatCardNumber_unfold (cardNumber : jsstring) :
  formatCardNumber cardNumber =
    match detectCardType cardNumber with
    | AMEX => group_4_6_5 (remove_spaces cardNumber)
    | _ => space_after_4_digits (remove_spaces cardNumber)
    end.
Proof.
  unfold formatCardNumber. rewrite detectCardType_remove_spaces.
  reflexivity.
Qed.

(** X15. Formatting only adds spaces: the formatted number, with white
    space removed, is the given number with white space removed; and
    formatting what is formatted changes nothing. *)
Theorem formatCardNumber_round_trip (cardNumber : jsstring) :
  remove_spaces (formatCardNumber cardNumber) = remove_spaces cardNumber /\
  formatCardNumber (formatCardNumber cardNumber) = formatCardNumber cardNumber.
Proof.
  assert (H : forall s,
    remove_spaces (formatCardNumber s) = remove_spaces s).
  { intros s. unfold formatCardNumber.
    destruct (detectCardType (remove_spaces s)).
    all: try (rewrite (space_after_4_digits_spaces _ _ (le_n _));
              apply remove_spaces_idempotent).
    rewrite group_4_6_5_spaces. apply remove_spaces_idempotent. }
  split; [apply H|].
  unfold formatCardNumber at 1. rewrite H. reflexivity.
Qed.

(** X16. The two layouts.  A number of sixteen digits is shown in four
    groups of four, and a number recognised as American Express in groups
    of four, six and five. *)
Theorem formatCardNumber_groups (cardNumber : jsstring) :
  let clean := remove_spaces cardNumber in
  (forallb is_digit clean = true -> List.length clean = 16%nat ->
   formatCardNumber cardNumber =
     firstn 4 clean ++ [chr " "] ++ firstn 4 (skipn 4 clean) ++ [chr " "] ++
     firstn 4 (skipn 8 clean) ++ [chr " "] ++ skipn 12 clean) /\
  (detectCardType cardNumber = AMEX ->
   formatCardNumber cardNumber =
     firstn 4 clean ++ [chr " "] ++ firstn 6 (skipn 4 clean) ++ [chr " "] ++
     skipn 10 clean).
Proof.
  intros clean. rewrite formatCardNumber_unfold. fold clean.
  split.
  - intros Hdig Hlen.
    assert (Hnot : detectCardType cardNumber <> AMEX).
    { intros Ha. pose proof (detectCardType_cases cardNumber) as H.
      cbv zeta in H. rewrite Ha in H. apply amex_accepts in H.
      fold clean in H. lia. }
    assert (Hfmt : space_after_4_digits clean =
      firstn 4 clean ++ [chr " "] ++ firstn 4 (skipn 4 clean) ++ [chr " "] ++
      firstn 4 (skipn 8 clean) ++ [chr " "] ++ skipn 12 clean).
    { clear Hnot. revert Hdig Hlen. generalize clean. intros s Hdig Hlen.
      do 16 (destruct s as [|? s]; [discriminate|]).
      destruct s; [|discriminate].
      split_digits Hdig.
      repeat match type of Hdig with _ /\ _ => destruct Hdig as [? Hdig] end.
      repeat (rewrite space_after_4_digits_step
                by (cbn [forallb];
                    repeat match goal with
                    | H : is_digit _ = true |- _ => rewrite H; clear H
                    end; reflexivity)).
      reflexivity. }
    destruct (detectCardType cardNumber); try exact Hfmt. contradiction.
  - intros Ha. pose proof (detectCardType_cases cardNumber) as H.
    cbv zeta in H. rewrite Ha in H |- *. apply amex_accepts in H.
    fold clean in H. destruct H as (Hdig & Hlen & _).
    unfold group_4_6_5.
    rewrite test_Seq_Times_digits by (auto; lia).
    rewrite test_Seq_Times_digits
      by (try apply forallb_skipn; auto; rewrite length_skipn; lia).
    rewrite test_Times_digits; [reflexivity| |].
    + do 2 apply forallb_skipn. assumption.
    + rewrite !length_skipn. lia.
Qed.

(** ** Validation *)

Lemma trim_start_spaces (s : jsstring) :
  remove_spaces (trim_start s) = remove_spaces s.
Proof.
  unfold remove_spaces. induction s as [|c t IH]; [reflexivity|].
  cbn [trim_start]. destruct (is_space c) eqn:Hc; [|reflexivity].
  cbn [filter]. rewrite Hc. exact IH.
Qed.

Lemma rev_nil {A} (l : list A) : rev l = [] -> l = [].
Proof.
  intros H. apply (f_equal (@rev A)) in H. rewrite rev_involutive in H.
  exact H.
Qed.

Lemma remove_spaces_rev (s : jsstring) :
  remove_spaces (rev s) = rev (remove_spaces s).
Proof.
  unfold remove_spaces. induction s as [|c t IH]; [reflexivity|].
  cbn [rev filter]. rewrite filter_app, IH. cbn [filter].
  destruct (negb (is_space c)); cbn [rev]; [reflexivity|].
  apply app_nil_r.
Qed.

(** A string that trims to nothing is white space only. *)
Lemma trim_nil (s : jsstring) : trim s = [] -> remove_spaces s = [].
Proof.
  unfold trim. intros H. apply rev_nil in H.
  apply (f_equal remove_spaces) in H.
  rewrite trim_start_spaces, remove_spaces_rev, trim_start_spaces in H.
  apply rev_nil. exact H.
Qed.

Lemma isNumeric_remove_spaces (s : jsstring) :
  isNumeric (remove_spaces s) = isNumeric s.
Proof. unfold isNumeric. rewrite remove_spaces_idempotent. reflexivity. Qed.

Lemma isNumeric_nil (s : jsstring) :
  remove_spaces s = [] -> isNumeric s = false.
Proof. unfold isNumeric. intros ->. reflexivity. Qed.

(** The two tests [validate] makes before [isNumeric] add nothing to it. *)
Lemma isNumeric_not_blank (s : jsstring) :
  isNumeric s = negb (is_empty s || is_empty (trim s)) && isNumeric s.
Proof.
  destruct (is_empty s || is_empty (trim s)) eqn:Hblank; [|reflexivity].
  cbn [negb andb]. apply isNumeric_nil.
  apply orb_true_iff in Hblank. destruct Hblank as [H|H].
  - destruct s; [reflexivity|discriminate].
  - apply trim_nil. destruct (trim s); [reflexivity|discriminate].
Qed.

Ltac split_conditions :=
  repeat match goal with
  | |- context [if ?c then _ else _] => destruct c eqn:?
  end.

(** The checks of [validate], without the final test on [errors]. *)
Ltac split_checks :=
  repeat match goal with
  | |- context [if ?c then _ else _] =>
      lazymatch c with
      | (0 <? _)%nat => fail
      | isValid _ => fail
      | _ => destruct c eqn:?
      end
  end.

(** When [validate] accepts, as one boolean. *)
Lemma validate_isValid (currentDate : Date) (card : CreditCardDetails) :
  isValid (fst (validate currentDate card)) =
    isNumeric (number card) &&
    negb (negb (JSNumber.truthy (expiryMonth card)) ||
          lt (expiryMonth card) (JSNumber.of_Z 1) ||
          lt (JSNumber.of_Z 12) (expiryMonth card)) &&
    negb (negb (JSNumber.truthy (expiryYear card)) ||
          lt (expiryYear card) (JSNumber.of_Z (getFullYear currentDate))) &&
    negb (strict_eq (expiryYear card)
            (JSNumber.of_Z (getFullYear currentDate)) &&
          lt (expiryMonth card)
            (JSNumber.of_Z (getMonth currentDate + 1))) &&
    isNumeric (cvv card) &&
    (List.length (cvv card) =?
       if CardType_eqb (detectCardType (number card)) AMEX then 4 else 3)%nat.
Proof.
  rewrite (isNumeric_not_blank (number card)).
  rewrite (isNumeric_not_blank (cvv card)).
  rewrite <- (isNumeric_remove_spaces (number card)) at 1.
  unfold validate, push.
  set (n1 := is_empty (number card) || is_empty (trim (number card))).
  set (n2 := isNumeric (remove_spaces (number card))).
  set (m1 := negb (JSNumber.truthy (expiryMonth card)) ||
             lt (expiryMonth card) (JSNumber.of_Z 1) ||
             lt (JSNumber.of_Z 12) (expiryMonth card)).
  set (y1 := negb (JSNumber.truthy (expiryYear card)) ||
             lt (expiryYear card) (JSNumber.of_Z (getFullYear currentDate))).
  set (y2 := strict_eq (expiryYear card)
               (JSNumber.of_Z (getFullYear currentDate)) &&
             lt (expiryMonth card)
               (JSNumber.of_Z (getMonth currentDate + 1))).
  set (c1 := is_empty (cvv card) || is_empty (trim (cvv card))).
  set (c2 := isNumeric (cvv card)).
  set (amex := CardType_eqb (detectCardType (number card)) AMEX).
  destruct n1, n2, m1, y1, y2, c1, c2, amex; cbv beta iota;
    destruct (List.length (cvv card) =? 4)%nat;
    destruct (List.length (cvv card) =? 3)%nat; reflexivity.
Qed.

(** X17. When [validate] accepts a card whose expiry month and year are
    integers: exactly when the number and the CVV are digits (white space
    apart, one digit or more), the month lies between 1 and 12, the expiry
    is not before the current month, and the CVV has four code units for
    an American Express number and three for any other. *)
Theorem validate_accepts_iff
    (currentDate : Date) (card : CreditCardDetails) (month year : Z) :
  expiryMonth card = JSNumber.of_Z month ->
  expiryYear card = JSNumber.of_Z year ->
  (- 2 ^ 53 < month < 2 ^ 53)%Z -> (- 2 ^ 53 < year < 2 ^ 53)%Z ->
  (0 < getFullYear currentDate < 2 ^ 53)%Z ->
  (0 <= getMonth currentDate <= 11)%Z ->
  isValid (fst (validate currentDate card)) = true <->
    isNumeric (number card) = true /\
    (1 <= month <= 12)%Z /\
    (getFullYear currentDate < year \/
     (year = getFullYear currentDate /\
      getMonth currentDate + 1 <= month))%Z /\
    isNumeric (cvv card) = true /\
    List.length (cvv card) =
      if CardType_eqb (detectCardType (number card)) AMEX
      then 4%nat else 3%nat.
Proof.
  intros Hmonth Hyear Hm Hy HY HM.
  rewrite validate_isValid, Hmonth, Hyear. unfold lt, strict_eq.
  rewrite !NumberOrder.truthy_of_Z by lia.
  rewrite !NumberOrder.SFltb_of_Z, NumberOrder.SFeqb_of_Z by lia.
  rewrite !andb_true_iff, !negb_true_iff, !orb_false_iff, andb_false_iff.
  rewrite !negb_involutive, Nat.eqb_eq, !Z.ltb_ge, !Z.eqb_neq.
  intuition lia.
Qed.

Lemma validate_accepts_iff_witness :
  isValid (fst (validate (mkDate 2026 10)
                  (mkCard (of_string "4242 4242 4242 4242")
                          (JSNumber.of_Z 11) (JSNumber.of_Z 2026)
                          (of_string "123") None))) = true.
Proof.
  refine (proj2 (validate_accepts_iff (mkDate 2026 10)
                   (mkCard (of_string "4242 4242 4242 4242")
                           (JSNumber.of_Z 11) (JSNumber.of_Z 2026)
                           (of_string "123") None)
                   11 2026 eq_refl eq_refl _ _ _ _) _);
    cbn [getFullYear getMonth]; try lia.
  split; [reflexivity|]. split; [lia|]. split; [right; lia|].
  split; reflexivity.
Defined.

(** X18. Validation reads the card number only to see that it is digits
    and whether it is an American Express number: replacing it by any
    other string of digits of the same kind changes neither the verdict
    nor the errors.  No check digit and no length is verified. *)
Theorem validate_never_checks_the_digits
    (currentDate : Date) (card : CreditCardDetails) (other : jsstring) :
  isNumeric (number card) = true ->
  isNumeric other = true ->
  CardType_eqb (detectCardType other) AMEX =
    CardType_eqb (detectCardType (number card)) AMEX ->
  let card' := mkCard other (expiryMonth card) (expiryYear card)
                 (cvv card) (cardholderName card) in
  isValid (fst (validate currentDate card')) =
    isValid (fst (validate currentDate card)) /\
  errors (fst (validate currentDate card')) =
    errors (fst (validate currentDate card)).
Proof.
  intros Hn Ho Hamex card'.
  assert (Hblank : forall s, isNumeric s = true ->
            is_empty s || is_empty (trim s) = false).
  { intros s Hs. rewrite isNumeric_not_blank in Hs.
    destruct (is_empty s || is_empty (trim s)); [discriminate|reflexivity]. }
  unfold validate, card'. cbn [number expiryMonth expiryYear cvv].
  rewrite !isNumeric_remove_spaces, Hn, Ho, Hamex.
  rewrite (Hblank _ Hn), (Hblank _ Ho). cbn [negb].
  split_conditions; split; reflexivity.
Qed.

Lemma validate_never_checks_the_digits_witness :
  isValid (fst (validate (mkDate 2026 10)
                  (mkCard (of_string "0") (JSNumber.of_Z 12)
                          (JSNumber.of_Z 2030) (of_string "123") None))) =
  isValid (fst (validate (mkDate 2026 10)
                  (mkCard (of_string "4242 4242 4242 4242")
                          (JSNumber.of_Z 12) (JSNumber.of_Z 2030)
                          (of_string "123") None))).
Proof.
  apply (validate_never_checks_the_digits (mkDate 2026 10)
           (mkCard (of_string "4242 4242 4242 4242") (JSNumber.of_Z 12)
                   (JSNumber.of_Z 2030) (of_string "123") None)
           (of_string "0")); reflexivity.
Defined.

(** X19. What [validate] reports.  The card type is always the detected
    one.  An accepted card has no errors and nothing is logged.  A
    rejected card has between one and four errors, no message twice, and
    one log entry is written that carries these errors and the card number
    as it was given, not masked. *)
Theorem validate_reports (currentDate : Date) (card : CreditCardDetails) :
  let result := fst (validate currentDate card) in
  let log := snd (validate currentDate card) in
  cardType result = Some (detectCardType (number card)) /\
  if isValid result
  then errors result = None /\ log = []
  else exists es,
         errors result = Some es /\
         (1 <= List.length es <= 4)%nat /\ NoDup es /\
         log = [mkLog "Credit card validation failed" (number card) es].
Proof.
  unfold validate, push.
  split_checks;
    cbn [app List.length Nat.ltb Nat.leb fst snd isValid errors cardType];
    (split; [reflexivity|]);
    try (split; reflexivity);
    (eexists; split; [reflexivity|]; split; [cbn [List.length]; lia|];
     split; [|reflexivity]);
    repeat (constructor; [cbn [In]; intuition discriminate|]); constructor.
Qed.

End ValidatorFacts.

(* ===================================================================== *)
(** * The HTTP handlers *)
(* ===================================================================== *)

Module ControllerFacts.
Import TransactionController.

(** X20. [createTransaction] answers every request, with or without a
    [user-id] header and whatever the provider would say, with 500, the
    fixed message and the code ["internal_error"]: [processPayment] throws
    a [TypeError], which is not a [PaymentError], before anything is
    sent. *)
Theorem createTransaction_always_500
    (env : ProcessEnv) (fuel : nat) (prov : nat -> AxiosResult)
    (ids : nat -> string) (req : CreateRequest) :
  result (run (createTransaction env fuel req) prov ids) =
    Normal (mkHttp 500 (Failure "An unexpected error occurred"
                          (VString "internal_error"))) /\
  submissions (run (createTransaction env fuel req) prov ids) = [].
Proof. split; reflexivity. Qed.

(** X24. [refundTransaction] answers 401 and does nothing else when the
    [user-id] header is absent or empty.  Otherwise it sends the one
    request of [processRefund] and answers 400, never 200 and never 500,
    with a message that starts with ["Failed to process refund: "]: what
    follows is the message of the rejected call or, for a call that was
    answered, of the error met in building the record, which for a
    response whose body is an object is the [TypeError] of reading
    [TransactionType.REFUND]. *)
Theorem refundTransaction_answers
    (env : ProcessEnv) (prov : nat -> AxiosResult) (ids : nat -> string)
    (req : RefundRequest) :
  let r := run (refundTransaction env req) prov ids in
  if truthy (header (refund_user_id req))
  then submissions r =
         [refund_request env (refund_id req) (refund_amount req)] /\
       result r =
         Normal (mkHttp 400
                   (FailureMessage
                      ("Failed to process refund: " ++
                       match prov 0%nat with
                       | Rejects e => message e
                       | Resolves response =>
                           message (first_failure (refund_amount req)
                                      response "REFUND")
                       end))) /\
       (forall fields,
          prov 0%nat = Resolves (mkResponse (VObject fields)) ->
          result r =
            Normal (mkHttp 400
                      (FailureMessage
                         "Failed to process refund: Cannot read properties of undefined (reading 'REFUND')")))
  else r = (Normal (mkHttp 401 (Failure "Authentication required"
                                  (VString "auth_required"))),
            initial prov ids).
Proof.
  intros r. subst r. unfold refundTransaction.
  destruct (truthy (header (refund_user_id req))); cbn [negb];
    [|reflexivity].
  destruct (processRefund_spec env prov ids (refund_id req) (refund_amount req))
    as [Hs Hr].
  unfold run, result, submissions in *.
  unfold try_catch, bind, ret.
  destruct (processRefund env (refund_id req) (refund_amount req)
              (initial prov ids)) as [c s] eqn:Hrun.
  cbn [fst snd] in *.
  assert (Hc : c = Throw (PaymentError
                 (VString ("Failed to process refund: " ++
                    match prov 0%nat with
                    | Rejects e => message e
                    | Resolves response =>
                        message (first_failure (refund_amount req)
                                   response "REFUND")
                    end))
                 match prov 0%nat with
                 | Rejects e => or (code e) (VString "refund_error")
                 | Resolves _ => VString "refund_error"
                 end)).
  { destruct (prov 0%nat); destruct Hr as [-> _]; reflexivity. }
  rewrite Hc. cbn [fst snd].
  split; [exact Hs|]. split; [reflexivity|].
  intros fields Hp. rewrite Hp, first_failure_object. reflexivity.
Qed.

End ControllerFacts.
